(** * jump.py: named-jump resolver and SSM tunnel launcher

    A shallow embedding of [jump.py] and the properties of its three-stage
    pipeline (load a jump definition, resolve it, launch the tunnel).

    Conventions of the embedding:
    - a Python [str] is a Rocq [string]; its characters are the code
      points U+0000..U+00FF;
    - a Python object read from [config.yaml] is a [pyval]; the fields of
      a [Jump] hold such objects, because a dataclass does not check the
      annotations of its fields;
    - the outside world (the file [config.yaml], the shell commands run by
      [subprocess]) is an explicit [world]; every function of the program
      is a computation that reads the world and extends a trace of
      [event]s (what [typer.secho] printed, which commands were run). *)

From Stdlib Require Import ZArith List Bool Lia Permutation.
From Stdlib Require Import Ascii String DecimalString.
Import ListNotations.

Local Open Scope string_scope.
Local Open Scope Z_scope.

(* ================================================================= *)
(** ** Python strings *)

Module PyStr.

(** The double quote and the apostrophe, and the characters the source
    writes as escapes. *)
Definition dquote_char : ascii := ascii_of_nat 34.
Definition squote_char : ascii := ascii_of_nat 39.
Definition backslash_char : ascii := ascii_of_nat 92.
Definition newline_char : ascii := ascii_of_nat 10.

Definition dq : string := String dquote_char EmptyString.
Definition sq : string := String squote_char EmptyString.
Definition bs : string := String backslash_char EmptyString.
Definition nl : string := String newline_char EmptyString.

(** [str.isspace] on one character (U+0009..U+000D, U+001C..U+0020,
    U+0085, U+00A0). *)
Definition is_space (c : ascii) : bool :=
  let n := nat_of_ascii c in
  (((9 <=? n) && (n <=? 13)) || ((28 <=? n) && (n <=? 32))
   || (n =? 133) || (n =? 160))%nat.

Definition is_empty (s : string) : bool :=
  match s with EmptyString => true | String _ _ => false end.

(** Every character of [s] is white space ([s] is empty or
    [s.isspace()]). *)
Fixpoint all_space (s : string) : bool :=
  match s with
  | EmptyString => true
  | String c r => is_space c && all_space r
  end.

(** [s.lstrip()], [s.rstrip()] and [s.strip()]. *)
Fixpoint lstrip (s : string) : string :=
  match s with
  | EmptyString => EmptyString
  | String c r => if is_space c then lstrip r else s
  end.

Fixpoint rstrip (s : string) : string :=
  match s with
  | EmptyString => EmptyString
  | String c r =>
      let r' := rstrip r in
      if is_space c && is_empty r' then EmptyString else String c r'
  end.

Definition strip (s : string) : string := rstrip (lstrip s).

(** [c in s] for a one-character string [c]. *)
Fixpoint contains (c : ascii) (s : string) : bool :=
  match s with
  | EmptyString => false
  | String a r => Ascii.eqb a c || contains c r
  end.

(** [str(n)] for an [int] (the limit that Python puts on the number of
    digits that [str] prints is outside the model). *)
Definition str_int (z : Z) : string := NilZero.string_of_int (Z.to_int z).

(** Lower-case hexadecimal digits, as [\xhh] and [\u00hh] print them. *)
Definition hex_digit (n : nat) : ascii :=
  if (n <? 10)%nat then ascii_of_nat (48 + n) else ascii_of_nat (87 + n).

Definition hex2 (c : ascii) : string :=
  let n := nat_of_ascii c in
  String (hex_digit (n / 16)) (String (hex_digit (n mod 16)) EmptyString).

(** [repr(s)] for a [str]: the quote is the apostrophe unless the string
    holds apostrophes and no double quote; the quote and the backslash
    are escaped, as are the characters that are not printable. *)
Definition repr_quote (s : string) : ascii :=
  if contains squote_char s && negb (contains dquote_char s)
  then dquote_char else squote_char.

Definition printable (c : ascii) : bool :=
  let n := nat_of_ascii c in
  ((32 <=? n) && (n <? 127) || (161 <=? n) && negb (n =? 173))%nat.

Definition repr_char (q c : ascii) : string :=
  let n := nat_of_ascii c in
  if Ascii.eqb c q || Ascii.eqb c backslash_char then String backslash_char (String c EmptyString)
  else if (n =? 9)%nat then bs ++ "t"
  else if (n =? 10)%nat then bs ++ "n"
  else if (n =? 13)%nat then bs ++ "r"
  else if printable c then String c EmptyString
  else bs ++ "x" ++ hex2 c.

Fixpoint repr_body (q : ascii) (s : string) : string :=
  match s with
  | EmptyString => EmptyString
  | String c r => repr_char q c ++ repr_body q r
  end.

Definition repr_str (s : string) : string :=
  let q := repr_quote s in
  String q (repr_body q s ++ String q EmptyString).

(** [json.dumps(s)] for a [str], with the default [ensure_ascii=True]. *)
Definition json_char (c : ascii) : string :=
  let n := nat_of_ascii c in
  if Ascii.eqb c dquote_char || Ascii.eqb c backslash_char
  then String backslash_char (String c EmptyString)
  else if (n =? 10)%nat then bs ++ "n"
  else if (n =? 13)%nat then bs ++ "r"
  else if (n =? 9)%nat then bs ++ "t"
  else if (n =? 8)%nat then bs ++ "b"
  else if (n =? 12)%nat then bs ++ "f"
  else if ((32 <=? n) && (n <? 127))%nat then String c EmptyString
  else bs ++ "u00" ++ hex2 c.

Fixpoint json_body (s : string) : string :=
  match s with
  | EmptyString => EmptyString
  | String c r => json_char c ++ json_body r
  end.

Definition json_str (s : string) : string := dq ++ json_body s ++ dq.

(** [", ".join(l)]. *)
Fixpoint join (sep : string) (l : list string) : string :=
  match l with
  | [] => EmptyString
  | [x] => x
  | x :: r => x ++ sep ++ join sep r
  end.

(** [s.split("\n")]: the lines of a text. *)
Fixpoint split_lines (s : string) : list string :=
  match s with
  | EmptyString => [EmptyString]
  | String c r =>
      if Ascii.eqb c newline_char then EmptyString :: split_lines r
      else match split_lines r with
           | [] => [String c EmptyString]
           | l :: ls => String c l :: ls
           end
  end.

End PyStr.
Import PyStr.

(* ================================================================= *)
(** ** Python objects *)

(** The objects [yaml.safe_load] builds from a document: [None], booleans,
    integers, strings, lists and dictionaries (whose items are kept in
    insertion order, with distinct keys). The floats, dates, sets and byte
    strings of YAML are outside the model. *)
#[warnings="-register-all"]
Inductive pyval : Type :=
| PNone
| PBool (b : bool)
| PInt (z : Z)
| PStr (s : string)
| PList (l : list pyval)
| PDict (items : list (pyval * pyval)).

(** [repr(v)]. *)
Fixpoint py_repr (v : pyval) : string :=
  match v with
  | PNone => "None"
  | PBool true => "True"
  | PBool false => "False"
  | PInt z => str_int z
  | PStr s => repr_str s
  | PList l =>
      "[" ++ (fix elems (l : list pyval) : string :=
                match l with
                | [] => EmptyString
                | x :: r =>
                    match r with
                    | [] => py_repr x
                    | _ :: _ => py_repr x ++ ", " ++ elems r
                    end
                end) l ++ "]"
  | PDict items =>
      "{" ++ (fix elems (l : list (pyval * pyval)) : string :=
                match l with
                | [] => EmptyString
                | (k, x) :: r =>
                    match r with
                    | [] => py_repr k ++ ": " ++ py_repr x
                    | _ :: _ => py_repr k ++ ": " ++ py_repr x ++ ", " ++ elems r
                    end
                end) items ++ "}"
  end.

(** [str(v)], which is also what [f"{v}"] interpolates. *)
Definition py_str (v : pyval) : string :=
  match v with
  | PStr s => s
  | _ => py_repr v
  end.

(** The truth value of an object, as [if v:] tests it. *)
Definition truthy (v : pyval) : bool :=
  match v with
  | PNone => false
  | PBool b => b
  | PInt z => negb (z =? 0)
  | PStr s => negb (is_empty s)
  | PList l => match l with [] => false | _ :: _ => true end
  | PDict items => match items with [] => false | _ :: _ => true end
  end.

(** Lists and dictionaries cannot be keys of a dictionary. *)
Definition hashable (v : pyval) : bool :=
  match v with
  | PList _ | PDict _ => false
  | _ => true
  end.

(** [k1 == k2] on hashable objects ([True == 1] and [False == 0]). *)
Definition key_eqb (k1 k2 : pyval) : bool :=
  match k1, k2 with
  | PNone, PNone => true
  | PBool a, PBool b => Bool.eqb a b
  | PBool a, PInt z | PInt z, PBool a => z =? (if a then 1 else 0)
  | PInt a, PInt b => a =? b
  | PStr a, PStr b => String.eqb a b
  | _, _ => false
  end.

(** A dictionary with values in [V]: its items in insertion order. *)
Definition pydict (V : Type) : Type := list (pyval * V).

(** [d.get(k, None)]. *)
Fixpoint dict_get {V} (d : pydict V) (k : pyval) : option V :=
  match d with
  | [] => None
  | (k', v) :: r => if key_eqb k' k then Some v else dict_get r k
  end.

(** [d[k] = v]: a key already present keeps its place and takes the new
    value. *)
Fixpoint dict_set {V} (d : pydict V) (k : pyval) (v : V) : pydict V :=
  match d with
  | [] => [(k, v)]
  | (k', v') :: r =>
      if key_eqb k' k then (k', v) :: r else (k', v') :: dict_set r k v
  end.

(* ================================================================= *)
(** ** Exceptions, events and the world *)

Inductive type_error : Type :=
| NotSubscriptable            (* raw["jumps"] on None, a bool or an int *)
| IndicesMustBeIntegers       (* raw["jumps"] on a str or a list *)
| NotIterable                 (* for j in <None, a bool or an int> *)
| NotAMapping                 (* Jump( **j ) with j not a dict *)
| KeywordsMustBeStrings       (* Jump( **j ) with a key that is not a str *)
| UnexpectedKeyword (k : string)
| MultipleValues (k : string) (* Jump( **j ) with the key self *)
| MissingKeywordOnly (fields : list string)
| Unhashable.                 (* {j.name: j} with j.name a list or a dict *)

Inductive exception : Type :=
| CalledProcessError (returncode : Z) (cmd : string)
| FileNotFoundError (path : string)
| YAMLError (problem : string)
| KeyError (key : string)
| TypeError (why : type_error).

Inductive color : Type := RED | MAGENTA | CYAN.

(** What [typer.secho] is given: a text, or a text that ends with the
    message of an exception ([f"... The error: {e}"]). *)
Inductive message : Type :=
| Text (s : string)
| TextAndError (s : string) (e : exception).

(** The three places of the source that run a shell command. *)
Inductive call_site : Type :=
| DescribeInstances      (* lookup_instance_id, line 57 *)
| DescribeVpcEndpoints   (* lookup_dns_from_vpc_endpoint, line 100 *)
| StartSession.          (* start_ssm_session, line 143 *)

Inductive event : Type :=
| Secho (msg : message) (fg : color)
| Subprocess (site : call_site) (cmd : string).

(** The result of running a shell command: its exit status and its
    standard output (as the text that [.decode()] gives). *)
Record CompletedProcess : Type :=
  { returncode : Z; stdout : string }.

(** The content of [config.yaml]: no such file, a text that
    [yaml.safe_load] refuses, or the document it builds. A file that is
    there and cannot be opened or decoded is outside the model. *)
Inductive config_file : Type :=
| Absent
| Malformed (problem : string)
| Document (raw : pyval).

(** The world of one invocation: the config file, and the answer of the
    shell to the [n]-th command of the run (counted from 0). *)
Record world : Type :=
  { config_yaml : config_file;
    shell : nat -> string -> CompletedProcess }.

Definition trace : Type := list event.
Bind Scope list_scope with trace.

Definition is_subprocess (e : event) : bool :=
  match e with Subprocess _ _ => true | Secho _ _ => false end.

(** The commands of a trace, in order. *)
Definition calls (t : trace) : list event := filter is_subprocess t.

(* ================================================================= *)
(** ** Computations *)

(** A function of the program returns a value, leaves through
    [raise typer.Exit(code=...)], or raises another exception. *)
Inductive outcome (A : Type) : Type :=
| Return (a : A)
| Exit (code : Z)
| Raise (e : exception).
Arguments Return {A} a.
Arguments Exit {A} code.
Arguments Raise {A} e.

Definition M (A : Type) : Type := world -> trace -> outcome A * trace.

Definition ret {A} (a : A) : M A := fun _ t => (Return a, t).

Definition bind {A B} (m : M A) (k : A -> M B) : M B :=
  fun w t =>
    match m w t with
    | (Return a, t') => k a w t'
    | (Exit c, t') => (Exit c, t')
    | (Raise e, t') => (Raise e, t')
    end.

Notation "x <- m ;; k" := (bind m (fun x => k))
  (at level 61, m at next level, right associativity).
Notation "m ;; k" := (bind m (fun _ => k))
  (at level 61, right associativity).

(** [raise typer.Exit(code=c)] and [raise e]. *)
Definition exit {A} (c : Z) : M A := fun _ t => (Exit c, t).
Definition raise {A} (e : exception) : M A := fun _ t => (Raise e, t).

(** [try: body except <class>: handler]; [typer.Exit] is not of the
    classes the source catches around code that raises it. *)
Definition try_except {A} (body : M A) (catches : exception -> bool)
    (handler : exception -> M A) : M A :=
  fun w t =>
    match body w t with
    | (Raise e, t') => if catches e then handler e w t' else (Raise e, t')
    | r => r
    end.

Definition when (b : bool) (m : M unit) : M unit :=
  if b then m else ret tt.

(** [typer.secho(msg, fg=...)]. *)
Definition secho (msg : message) (fg : color) : M unit :=
  fun _ t => (Return tt, t ++ [Secho msg fg])%list.

(** [subprocess.run(cmd, shell=True)]: runs the command and returns its
    [CompletedProcess], whatever the exit status ([check] is false). The
    exceptions that [subprocess] raises before it runs anything
    ([ValueError] for a NUL character in the command, [OSError]) are
    outside the model. *)
Definition subprocess_run (site : call_site) (cmd : string) : M CompletedProcess :=
  fun w t =>
    (Return (shell w (List.length (calls t)) cmd), t ++ [Subprocess site cmd])%list.

(** [subprocess.check_output(cmd, shell=True).decode()]: the output of the
    command, or [CalledProcessError] when its exit status is not 0. An
    output that is not UTF-8, on which [.decode()] raises, is outside the
    model. *)
Definition subprocess_check_output (site : call_site) (cmd : string) : M string :=
  p <- subprocess_run site cmd ;;
  if returncode p =? 0 then ret (stdout p)
  else raise (CalledProcessError (returncode p) cmd).

Definition is_CalledProcessError (e : exception) : bool :=
  match e with CalledProcessError _ _ => true | _ => false end.

(** The exit status of the process. *)
Definition exit_status {A} (r : outcome A) : Z :=
  match r with
  | Return _ => 0
  | Exit c => c
  | Raise _ => 1
  end.

(* ================================================================= *)
(** ** The program *)

(** [class Jump]: a dataclass with keyword-only fields. The annotations
    ([str], [int], [bool]) are not checked when an instance is built, so a
    field holds whatever object the document gave. *)
Record Jump : Type :=
  { name : pyval;
    target_instance_name : pyval;
    remote_host : pyval;
    remote_port : pyval;
    local_port : pyval;
    aws_profile : pyval;
    remote_host_is_a_vpc_endpoint : pyval }.

Definition required_fields : list string :=
  ["name"; "target_instance_name"; "remote_host"; "remote_port";
   "local_port"; "aws_profile"].

Definition all_fields : list string :=
  (required_fields ++ ["remote_host_is_a_vpc_endpoint"])%list.

Definition result (A : Type) : Type := (exception + A)%type.

(** The keyword arguments that [**j] passes: the items of a dictionary
    whose keys are all strings. *)
Fixpoint keywords (items : list (pyval * pyval)) : option (list (string * pyval)) :=
  match items with
  | [] => Some []
  | (PStr k, v) :: r =>
      match keywords r with
      | Some kw => Some ((k, v) :: kw)
      | None => None
      end
  | _ :: _ => None
  end.

Fixpoint kw_get (kw : list (string * pyval)) (f : string) : option pyval :=
  match kw with
  | [] => None
  | (k, v) :: r => if String.eqb k f then Some v else kw_get r f
  end.

Definition is_field (k : string) : bool :=
  existsb (String.eqb k) all_fields.

Definition kw_missing (kw : list (string * pyval)) (f : string) : bool :=
  match kw_get kw f with Some _ => false | None => true end.

(** [Jump( **j )]: the keywords are bound in the order of the mapping; the
    first one that is no field raises, [self] as a second value of the
    first parameter of [__init__], any other as an unexpected keyword. *)
Definition Jump_init (j : pyval) : result Jump :=
  match j with
  | PDict items =>
      match keywords items with
      | None => inl (TypeError KeywordsMustBeStrings)
      | Some kw =>
          match find (fun kv => negb (is_field (fst kv))) kw with
          | Some (k, _) =>
              inl (TypeError (if String.eqb k "self" then MultipleValues k
                              else UnexpectedKeyword k))
          | None =>
              match kw_get kw "name", kw_get kw "target_instance_name",
                    kw_get kw "remote_host", kw_get kw "remote_port",
                    kw_get kw "local_port", kw_get kw "aws_profile" with
              | Some n, Some tin, Some rh, Some rp, Some lp, Some ap =>
                  inr {| name := n;
                         target_instance_name := tin;
                         remote_host := rh;
                         remote_port := rp;
                         local_port := lp;
                         aws_profile := ap;
                         remote_host_is_a_vpc_endpoint :=
                           match kw_get kw "remote_host_is_a_vpc_endpoint" with
                           | Some b => b
                           | None => PBool false
                           end |}
              | _, _, _, _, _, _ =>
                  inl (TypeError (MissingKeywordOnly
                                    (filter (kw_missing kw) required_fields)))
              end
          end
      end
  | _ => inl (TypeError NotAMapping)
  end.

(** [raw["jumps"]]. *)
Definition subscript_jumps (raw : pyval) : result pyval :=
  match raw with
  | PDict items =>
      match dict_get items (PStr "jumps") with
      | Some v => inr v
      | None => inl (KeyError "jumps")
      end
  | PStr _ | PList _ => inl (TypeError IndicesMustBeIntegers)
  | PNone | PBool _ | PInt _ => inl (TypeError NotSubscriptable)
  end.

Fixpoint chars (s : string) : list pyval :=
  match s with
  | EmptyString => []
  | String c r => PStr (String c EmptyString) :: chars r
  end.

(** [for j in v]: the elements of a list, the keys of a dictionary, the
    characters of a string. *)
Definition iterate (v : pyval) : result (list pyval) :=
  match v with
  | PList l => inr l
  | PDict items => inr (map fst items)
  | PStr s => inr (chars s)
  | PNone | PBool _ | PInt _ => inl (TypeError NotIterable)
  end.

(** [[Jump( **j ) for j in ...]]: the first record that fails raises. *)
Fixpoint build_jumps (records : list pyval) : result (list Jump) :=
  match records with
  | [] => inr []
  | j :: r =>
      match Jump_init j with
      | inl e => inl e
      | inr x =>
          match build_jumps r with
          | inl e => inl e
          | inr xs => inr (x :: xs)
          end
      end
  end.

(** [{j.name: j for j in jumps}], starting from the dictionary [d]. *)
Fixpoint index_by_name (d : pydict Jump) (jumps : list Jump) : result (pydict Jump) :=
  match jumps with
  | [] => inr d
  | j :: r =>
      if hashable (name j) then index_by_name (dict_set d (name j) j) r
      else inl (TypeError Unhashable)
  end.

(** The body of the [try] of [parse_jumps_from_config]. *)
Definition load_config (f : config_file) : result (pydict Jump) :=
  match f with
  | Absent => inl (FileNotFoundError "config.yaml")
  | Malformed problem => inl (YAMLError problem)
  | Document raw =>
      match subscript_jumps raw with
      | inl e => inl e
      | inr v =>
          match iterate v with
          | inl e => inl e
          | inr records =>
              match build_jumps records with
              | inl e => inl e
              | inr jumps => index_by_name [] jumps
              end
          end
      end
  end.

Definition lift {A} (r : world -> result A) : M A :=
  fun w t =>
    match r w with
    | inl e => (Raise e, t)
    | inr a => (Return a, t)
    end.

Definition config_error_text : string :=
  "Failed to parse config.yaml. Please have a look at config.example.yaml for syntax. The error: ".

Definition parse_jumps_from_config : M (pydict Jump) :=
  try_except
    (lift (fun w => load_config (config_yaml w)))
    (fun _ => true)
    (fun e => secho (TextAndError config_error_text e) RED ;; exit 1).

Definition describe_instances_cmd (instance_name aws_profile : pyval) : string :=
  let cmd := "aws --profile " ++ py_str aws_profile ++ " ec2 describe-instances" in
  let cmd := cmd ++ " --query " ++ dq ++ "Reservations[*].Instances[*].[InstanceId]"
                 ++ dq ++ " --output text" in
  let cmd := cmd ++ " --filters" in
  let cmd := cmd ++ " Name=tag:Name,Values=" ++ py_str instance_name in
  let cmd := cmd ++ " Name=instance-state-name,Values=running" in
  cmd ++ " --output text".

Definition lookup_instance_id (instance_name aws_profile : pyval) (verbose : bool)
  : M string :=
  secho (Text ("Looking up the instance ID of " ++ py_str instance_name)) MAGENTA ;;
  try_except
    (let cmd := describe_instances_cmd instance_name aws_profile in
     when verbose (secho (Text cmd) CYAN) ;;
     out <- subprocess_check_output DescribeInstances cmd ;;
     let instance_id := strip out in
     when verbose (secho (Text ("instance_id=" ++ repr_str instance_id)) CYAN) ;;
     when (is_empty instance_id)
       (secho (Text ("Could not find instance ID for " ++ py_str instance_name)) RED ;;
        exit 1) ;;
     when (contains newline_char instance_id)
       (secho (Text "Found more than one instance. This is not supported at the moment.") RED ;;
        exit 1) ;;
     ret instance_id)
    is_CalledProcessError
    (fun _ =>
       secho (Text ("Failed to lookup the instance ID of " ++ py_str instance_name)) RED ;;
       exit 1).

Definition describe_vpc_endpoints_cmd (vpc_endpoint_name aws_profile : pyval) : string :=
  let cmd := "aws --profile " ++ py_str aws_profile ++ " ec2 describe-vpc-endpoints" in
  let cmd := cmd ++ " --query " ++ dq ++ "VpcEndpoints[0].DnsEntries[0].DnsName" ++ dq in
  let cmd := cmd ++ " --filters" in
  let cmd := cmd ++ " Name=tag:Name,Values=" ++ py_str vpc_endpoint_name in
  cmd ++ " --output text".

Definition lookup_dns_from_vpc_endpoint (vpc_endpoint_name aws_profile : pyval)
    (verbose : bool) : M string :=
  secho (Text ("Looking up the DNS from VPC endpoint " ++ py_str vpc_endpoint_name))
        MAGENTA ;;
  try_except
    (let cmd := describe_vpc_endpoints_cmd vpc_endpoint_name aws_profile in
     when verbose (secho (Text cmd) CYAN) ;;
     out <- subprocess_check_output DescribeVpcEndpoints cmd ;;
     let dns_name := strip out in
     when verbose (secho (Text ("dns_name=" ++ repr_str dns_name)) CYAN) ;;
     when (is_empty dns_name)
       (secho (Text ("Could not find DNS for " ++ py_str vpc_endpoint_name)) RED ;;
        exit 1) ;;
     ret dns_name)
    is_CalledProcessError
    (fun _ =>
       secho (Text ("Failed to lookup the DNS of " ++ py_str vpc_endpoint_name)) RED ;;
       exit 1).

(** The dictionary [parameters] of [start_ssm_session], and
    [json.dumps(parameters)]. *)
Definition ssm_parameters (remote_host remote_port local_port : pyval)
  : list (string * list string) :=
  [ ("host", [py_str remote_host]);
    ("portNumber", [py_str remote_port]);
    ("localPortNumber", [py_str local_port]) ].

Definition json_dumps (d : list (string * list string)) : string :=
  "{" ++ join ", " (map (fun kv => json_str (fst kv) ++ ": "
                                   ++ "[" ++ join ", " (map json_str (snd kv)) ++ "]") d)
      ++ "}".

Definition start_session_cmd
    (target_instance_id remote_host remote_port local_port aws_profile : pyval) : string :=
  let parameters := ssm_parameters remote_host remote_port local_port in
  let cmd := "aws --profile " ++ py_str aws_profile ++ " " in
  let cmd := cmd ++ "ssm start-session --target " ++ py_str target_instance_id ++ " " in
  let cmd := cmd ++ "--document-name AWS-StartPortForwardingSessionToRemoteHost --parameters " in
  cmd ++ sq ++ json_dumps parameters ++ sq.

Definition start_ssm_session
    (target_instance_id remote_host remote_port local_port aws_profile : pyval)
    (verbose : bool) : M unit :=
  secho (Text "Establishing an SSM session") MAGENTA ;;
  let cmd := start_session_cmd target_instance_id remote_host remote_port
                               local_port aws_profile in
  try_except
    (when verbose (secho (Text cmd) CYAN) ;;
     _ <- subprocess_run StartSession cmd ;;
     ret tt)
    is_CalledProcessError
    (fun _ => secho (Text "Failed to establish an SSM session") RED ;; exit 1).

(** The command [jump NAME [--verbose]]. *)
Definition jump (jump_name : string) (verbose : bool) : M unit :=
  jumps <- parse_jumps_from_config ;;
  match dict_get jumps (PStr jump_name) with
  | None =>
      secho (Text ("Jump " ++ jump_name ++ " not specified in config.yaml")) RED ;;
      exit 1
  | Some target =>
      target_instance_id <-
        lookup_instance_id (target_instance_name target) (aws_profile target) verbose ;;
      target_remote_host <-
        (if truthy (remote_host_is_a_vpc_endpoint target)
         then dns <- lookup_dns_from_vpc_endpoint (remote_host target)
                       (aws_profile target) verbose ;;
              ret (PStr dns)
         else ret (remote_host target)) ;;
      start_ssm_session (PStr target_instance_id) target_remote_host
        (remote_port target) (local_port target) (aws_profile target) verbose
  end.

(** One run of the command, from an empty trace. *)
Definition run_jump (w : world) (jump_name : string) (verbose : bool)
  : outcome unit * trace :=
  jump jump_name verbose w [].

(* ================================================================= *)
(** ** Vocabulary of the properties *)

(** The lines of a text that hold more than white space. *)
Definition nonblank_lines (text : string) : list string :=
  filter (fun l => negb (all_space l)) (split_lines text).

(** A trace without the diagnostics of verbose mode (the cyan echoes). *)
Definition is_diagnostic (e : event) : bool :=
  match e with
  | Secho _ CYAN => true
  | _ => false
  end.

Definition quiet (t : trace) : trace :=
  filter (fun e => negb (is_diagnostic e)) t.

(** The echo that verbose mode adds. *)
Definition diagnostic (verbose : bool) (s : string) : trace :=
  if verbose then [Secho (Text s) CYAN] else [].


(** The last event of a trace. *)
Definition final (t : trace) : option event :=
  match rev t with
  | e :: _ => Some e
  | [] => None
  end.

(** The jump of the example: [db-jump], through the instance [db-bastion]
    to [10.0.1.5:5432], bound to the local port 15432. *)
Definition db_jump_record (profile : pyval) : pyval :=
  PDict [ (PStr "name", PStr "db-jump");
          (PStr "target_instance_name", PStr "db-bastion");
          (PStr "remote_host", PStr "10.0.1.5");
          (PStr "remote_port", PInt 5432);
          (PStr "local_port", PInt 15432);
          (PStr "aws_profile", profile);
          (PStr "remote_host_is_a_vpc_endpoint", PBool false) ].

Definition db_jump (profile : pyval) : Jump :=
  {| name := PStr "db-jump";
     target_instance_name := PStr "db-bastion";
     remote_host := PStr "10.0.1.5";
     remote_port := PInt 5432;
     local_port := PInt 15432;
     aws_profile := profile;
     remote_host_is_a_vpc_endpoint := PBool false |}.

Definition db_jump_config (profile : pyval) : config_file :=
  Document (PDict [ (PStr "jumps", PList [db_jump_record profile]) ]).

(** A shell that answers the first command with [first] and every later
    one with [later]. *)
Definition answers (first later : CompletedProcess) : nat -> string -> CompletedProcess :=
  fun n _ => match n with O => first | S _ => later end.

Definition succeeded (out : string) : CompletedProcess :=
  {| returncode := 0; stdout := out |}.

Definition failed (code : Z) : CompletedProcess :=
  {| returncode := code; stdout := EmptyString |}.

(** A world in which the instance is found and the session transport
    then fails with exit status 255. *)
Definition failing_transport_world : world :=
  {| config_yaml := db_jump_config (PStr "prod");
     shell := answers (succeeded ("i-0abc" ++ nl)) (failed 255) |}.

(** A world in which every command succeeds and prints one line. *)
Definition calm_world : world :=
  {| config_yaml := db_jump_config (PStr "prod");
     shell := answers (succeeded ("i-0abc" ++ nl)) (succeeded ("vpce-1.example" ++ nl)) |}.


(** A jump whose remote host is the name of a VPC endpoint. *)
Definition cache_jump_record : pyval :=
  PDict [ (PStr "name", PStr "cache-jump");
          (PStr "target_instance_name", PStr "cache-bastion");
          (PStr "remote_host", PStr "cache-endpoint");
          (PStr "remote_port", PInt 6379);
          (PStr "local_port", PInt 16379);
          (PStr "aws_profile", PStr "prod");
          (PStr "remote_host_is_a_vpc_endpoint", PBool true) ].

Definition cache_jump : Jump :=
  {| name := PStr "cache-jump";
     target_instance_name := PStr "cache-bastion";
     remote_host := PStr "cache-endpoint";
     remote_port := PInt 6379;
     local_port := PInt 16379;
     aws_profile := PStr "prod";
     remote_host_is_a_vpc_endpoint := PBool true |}.

Definition cache_config : config_file :=
  Document (PDict [ (PStr "jumps", PList [cache_jump_record]) ]).

(** Worlds for [cache-jump]: the instance is found, and the endpoint query
    prints a name, prints nothing, or fails. *)
Definition endpoint_world : world :=
  {| config_yaml := cache_config;
     shell := answers (succeeded ("i-0abc" ++ nl)) (succeeded ("vpce-1.example" ++ nl)) |}.

Definition endpoint_missing_world : world :=
  {| config_yaml := cache_config;
     shell := answers (succeeded ("i-0abc" ++ nl)) (succeeded nl) |}.

Definition endpoint_failing_world : world :=
  {| config_yaml := cache_config;
     shell := answers (succeeded ("i-0abc" ++ nl)) (failed 254) |}.


(** The records of a document: what [raw["jumps"]] iterates over (none
    when the document has no such key, or a value that does not
    iterate). *)
Definition records_of (raw : pyval) : list pyval :=
  match subscript_jumps raw with
  | inr v => match iterate v with inr records => records | inl _ => [] end
  | inl _ => []
  end.

(** The document is not a mapping with the key [jumps]. *)
Definition lacks_jumps_key (raw : pyval) : Prop :=
  match raw with
  | PDict items => dict_get items (PStr "jumps") = None
  | _ => True
  end.

(** The value under the key [jumps] is [None], a boolean or an integer:
    nothing that a [for] goes through. *)
Definition jumps_not_iterable (raw : pyval) : Prop :=
  exists items v,
    raw = PDict items /\ dict_get items (PStr "jumps") = Some v
    /\ match v with
       | PNone | PBool _ | PInt _ => True
       | PStr _ | PList _ | PDict _ => False
       end.

(** A record (a mapping with string keys) without one of the required
    fields. *)
Definition misses_required_field (j : pyval) : Prop :=
  exists items kw f,
    j = PDict items /\ keywords items = Some kw
    /\ In f required_fields /\ kw_get kw f = None.

(** A record with a key that is not a field of [Jump]. *)
Definition has_unknown_field (j : pyval) : Prop :=
  exists items k v, j = PDict items /\ In (PStr k, v) items /\ ~ In k all_fields.

(** The annotation of each field of [Jump]: [str], [int] or [bool]. *)
Definition matches_annotation (f : string) (v : pyval) : bool :=
  if existsb (String.eqb f) ["name"; "target_instance_name"; "remote_host"; "aws_profile"]
  then match v with PStr _ => true | _ => false end
  else if existsb (String.eqb f) ["remote_port"; "local_port"]
  then match v with PInt _ | PBool _ => true | _ => false end
  else if String.eqb f "remote_host_is_a_vpc_endpoint"
  then match v with PBool _ => true | _ => false end
  else true.

(** A record with a field whose value is not of the annotated type. *)
Definition has_field_of_wrong_type (j : pyval) : Prop :=
  exists items f v,
    j = PDict items /\ In (PStr f, v) items /\ In f all_fields
    /\ matches_annotation f v = false.

(** The documents that claim C7 lists. *)
Definition defect_as_claimed (f : config_file) : Prop :=
  f = Absent
  \/ (exists problem, f = Malformed problem)
  \/ (exists raw j, f = Document raw /\ In j (records_of raw)
                    /\ (misses_required_field j \/ has_field_of_wrong_type j
                        \/ has_unknown_field j)).

(** The same documents, without those that only have a field of the
    wrong type. *)
Definition defect_rejected (f : config_file) : Prop :=
  f = Absent
  \/ (exists problem, f = Malformed problem)
  \/ (exists raw j, f = Document raw /\ In j (records_of raw)
                    /\ (misses_required_field j \/ has_unknown_field j)).

(** [db-jump] with a string where the remote port should be. *)
Definition mistyped_record : pyval :=
  PDict [ (PStr "name", PStr "db-jump");
          (PStr "target_instance_name", PStr "db-bastion");
          (PStr "remote_host", PStr "10.0.1.5");
          (PStr "remote_port", PStr "abc");
          (PStr "local_port", PInt 15432);
          (PStr "aws_profile", PStr "prod") ].

Definition mistyped_jump : Jump :=
  {| name := PStr "db-jump";
     target_instance_name := PStr "db-bastion";
     remote_host := PStr "10.0.1.5";
     remote_port := PStr "abc";
     local_port := PInt 15432;
     aws_profile := PStr "prod";
     remote_host_is_a_vpc_endpoint := PBool false |}.

Definition mistyped_world : world :=
  {| config_yaml := Document (PDict [ (PStr "jumps", PList [mistyped_record]) ]);
     shell := answers (succeeded ("i-0abc" ++ nl)) (succeeded EmptyString) |}.

(** A record without [aws_profile], and a world whose config holds it. *)
Definition incomplete_record : pyval :=
  PDict [ (PStr "name", PStr "db-jump");
          (PStr "target_instance_name", PStr "db-bastion");
          (PStr "remote_host", PStr "10.0.1.5");
          (PStr "remote_port", PInt 5432);
          (PStr "local_port", PInt 15432) ].

Definition incomplete_world : world :=
  {| config_yaml := Document (PDict [ (PStr "jumps", PList [incomplete_record]) ]);
     shell := answers (succeeded ("i-0abc" ++ nl)) (succeeded EmptyString) |}.

(** A config with two records named [db-jump]; the second one goes
    through another instance. *)
Definition second_db_jump_record : pyval :=
  PDict [ (PStr "name", PStr "db-jump");
          (PStr "target_instance_name", PStr "db-bastion-2");
          (PStr "remote_host", PStr "10.0.2.5");
          (PStr "remote_port", PInt 5432);
          (PStr "local_port", PInt 25432);
          (PStr "aws_profile", PStr "prod") ].

Definition second_db_jump : Jump :=
  {| name := PStr "db-jump";
     target_instance_name := PStr "db-bastion-2";
     remote_host := PStr "10.0.2.5";
     remote_port := PInt 5432;
     local_port := PInt 25432;
     aws_profile := PStr "prod";
     remote_host_is_a_vpc_endpoint := PBool false |}.

Definition duplicate_world : world :=
  {| config_yaml :=
       Document (PDict [ (PStr "jumps",
                          PList [db_jump_record (PStr "prod"); cache_jump_record;
                                 second_db_jump_record]) ]);
     shell := answers (succeeded ("i-0abc" ++ nl)) (succeeded EmptyString) |}.


(** The answer to the instance query names one instance: the command
    succeeded and its output, stripped, is one line that is not empty. *)
Definition instance_found (p : CompletedProcess) : bool :=
  (returncode p =? 0)
  && negb (is_empty (strip (stdout p)))
  && negb (contains newline_char (strip (stdout p))).

(** The answer to the endpoint query names a host: the command succeeded
    and its output, stripped, is not empty. *)
Definition dns_found (p : CompletedProcess) : bool :=
  (returncode p =? 0) && negb (is_empty (strip (stdout p))).

(** The outcome and the commands of the stages that follow the config
    store, for the jump [target], in a world [w]. *)
Definition expected_run (w : world) (target : Jump) : outcome unit * list event :=
  let di := describe_instances_cmd (target_instance_name target) (aws_profile target) in
  let id := strip (stdout (shell w 0 di)) in
  let dv := describe_vpc_endpoints_cmd (remote_host target) (aws_profile target) in
  let dns := strip (stdout (shell w 1 dv)) in
  let session host :=
    Subprocess StartSession
      (start_session_cmd (PStr id) host (remote_port target) (local_port target)
         (aws_profile target)) in
  if instance_found (shell w 0 di) then
    if truthy (remote_host_is_a_vpc_endpoint target) then
      if dns_found (shell w 1 dv) then
        (Return tt, [Subprocess DescribeInstances di;
                     Subprocess DescribeVpcEndpoints dv; session (PStr dns)])
      else (Exit 1, [Subprocess DescribeInstances di;
                     Subprocess DescribeVpcEndpoints dv])
    else (Return tt, [Subprocess DescribeInstances di; session (remote_host target)])
  else (Exit 1, [Subprocess DescribeInstances di]).

Definition is_red (e : event) : bool :=
  match e with
  | Secho _ RED => true
  | _ => false
  end.

Definition is_session (e : event) : bool :=
  match e with
  | Subprocess StartSession _ => true
  | _ => false
  end.


(** The places of the source whose commands a trace holds, in order. *)
Definition sites (t : trace) : list call_site :=
  flat_map (fun e => match e with Subprocess s _ => [s] | Secho _ _ => [] end) t.


(** A world for [cache-jump] in which the instance query itself fails. *)
Definition instance_failing_world : world :=
  {| config_yaml := cache_config;
     shell := answers (failed 254) (succeeded ("vpce-1.example" ++ nl)) |}.


(** No two keys of a dictionary are equal. *)
Fixpoint keys_distinct {V} (d : pydict V) : bool :=
  match d with
  | [] => true
  | (k, _) :: r => negb (existsb (key_eqb k) (map fst r)) && keys_distinct r
  end.

(** A record that [**j] cannot pass as keyword arguments: it is not a
    mapping, or one of its keys is not a string. *)
Definition not_keyword_mapping (j : pyval) : Prop :=
  match j with
  | PDict items => keywords items = None
  | _ => True
  end.


(** The record of [db-jump] without the key of the flag. *)
Definition db_jump_record_without_flag : pyval :=
  PDict [ (PStr "name", PStr "db-jump");
          (PStr "target_instance_name", PStr "db-bastion");
          (PStr "remote_host", PStr "10.0.1.5");
          (PStr "remote_port", PInt 5432);
          (PStr "local_port", PInt 15432);
          (PStr "aws_profile", PStr "prod") ].


(** Every command of the trace comes right after the cyan echo of its
    text. *)
Definition commands_echoed (t : trace) : Prop :=
  forall pre site cmd post,
    t = (pre ++ Subprocess site cmd :: post)%list ->
    exists pre', pre = (pre' ++ [Secho (Text cmd) CYAN])%list.

(* ================================================================= *)
(** ** Lemmas on strings: stripping and lines *)

Section Strings.

Lemma is_empty_true (s : string) : is_empty s = true -> s = EmptyString.
Proof. destruct s; [reflexivity | discriminate]. Qed.

Lemma app_empty_r (s : string) : s ++ EmptyString = s.
Proof. induction s as [|c r IH]; simpl; [|rewrite IH]; reflexivity. Qed.

Lemma app_assoc_s (a b c : string) : (a ++ b) ++ c = a ++ b ++ c.
Proof. induction a as [|x a IH]; simpl; [|rewrite IH]; reflexivity. Qed.

Lemma all_space_app (a b : string) :
  all_space (a ++ b) = all_space a && all_space b.
Proof.
  induction a as [|c a IH]; simpl; [reflexivity|].
  rewrite IH. apply andb_assoc.
Qed.

Lemma is_empty_lstrip (s : string) : is_empty (lstrip s) = all_space s.
Proof.
  induction s as [|c r IH]; simpl; [reflexivity|].
  destruct (is_space c); simpl; [exact IH | reflexivity].
Qed.

Lemma is_empty_rstrip (s : string) : is_empty (rstrip s) = all_space s.
Proof.
  induction s as [|c r IH]; simpl; [reflexivity|].
  rewrite IH. destruct (is_space c), (all_space r); reflexivity.
Qed.

Lemma all_space_lstrip (s : string) : all_space (lstrip s) = all_space s.
Proof.
  induction s as [|c r IH]; simpl; [reflexivity|].
  destruct (is_space c) eqn:E; simpl; [exact IH | rewrite E; reflexivity].
Qed.

Lemma is_empty_strip (s : string) : is_empty (strip s) = all_space s.
Proof. unfold strip. rewrite is_empty_rstrip. apply all_space_lstrip. Qed.

Lemma lstrip_app_blank (a b : string) :
  all_space a = true -> lstrip (a ++ b) = lstrip b.
Proof.
  induction a as [|c a IH]; simpl; [reflexivity|].
  intros H. apply andb_prop in H as [Hc Ha]. rewrite Hc. auto.
Qed.

Lemma lstrip_app_nonblank (a b : string) :
  all_space a = false -> lstrip (a ++ b) = lstrip a ++ b.
Proof.
  induction a as [|c a IH]; simpl; [discriminate|].
  destruct (is_space c); simpl; [exact IH | reflexivity].
Qed.

Lemma rstrip_blank (s : string) : all_space s = true -> rstrip s = EmptyString.
Proof. intros H. apply is_empty_true. rewrite is_empty_rstrip. exact H. Qed.

Lemma rstrip_app_blank (a b : string) :
  all_space b = true -> rstrip (a ++ b) = rstrip a.
Proof.
  intros Hb. induction a as [|c a IH]; simpl.
  - apply rstrip_blank, Hb.
  - rewrite IH. reflexivity.
Qed.

Lemma rstrip_app_nonblank (a b : string) :
  all_space b = false -> rstrip (a ++ b) = a ++ rstrip b.
Proof.
  intros Hb. induction a as [|c a IH]; simpl; [reflexivity|].
  rewrite IH.
  assert (E : is_empty (a ++ rstrip b) = false).
  { destruct a; simpl; [|reflexivity]. rewrite is_empty_rstrip. exact Hb. }
  rewrite E, andb_false_r. reflexivity.
Qed.

Lemma contains_app (c : ascii) (a b : string) :
  contains c (a ++ b) = contains c a || contains c b.
Proof.
  induction a as [|x a IH]; simpl; [reflexivity|].
  rewrite IH. apply orb_assoc.
Qed.

Lemma contains_lstrip (c : ascii) (s : string) :
  contains c s = false -> contains c (lstrip s) = false.
Proof.
  induction s as [|x s IH]; simpl; [reflexivity|].
  intros H. apply orb_false_elim in H as [Hx Hs].
  destruct (is_space x); simpl; [auto | rewrite Hx, Hs; reflexivity].
Qed.

Lemma contains_rstrip (c : ascii) (s : string) :
  contains c s = false -> contains c (rstrip s) = false.
Proof.
  induction s as [|x s IH]; simpl; [reflexivity|].
  intros H. apply orb_false_elim in H as [Hx Hs].
  destruct (is_space x && is_empty (rstrip s)); simpl; [reflexivity|].
  rewrite Hx. auto.
Qed.

Lemma contains_strip (c : ascii) (s : string) :
  contains c s = false -> contains c (strip s) = false.
Proof. intros H. apply contains_rstrip, contains_lstrip, H. Qed.

(** A text is its lines joined by newlines, and no line holds one. *)
Lemma split_lines_not_nil (s : string) : split_lines s <> [].
Proof.
  induction s as [|c r IH]; simpl; [discriminate|].
  destruct (Ascii.eqb c newline_char); [discriminate|].
  destruct (split_lines r); discriminate.
Qed.

Lemma join_split_lines (s : string) : join nl (split_lines s) = s.
Proof.
  induction s as [|c r IH]; simpl; [reflexivity|].
  destruct (Ascii.eqb c newline_char) eqn:E.
  - apply Ascii.eqb_eq in E. subst c.
    pose proof (split_lines_not_nil r) as N.
    destruct (split_lines r) as [|l ls]; [contradiction|].
    change (join nl (EmptyString :: l :: ls))
      with (EmptyString ++ nl ++ join nl (l :: ls)).
    rewrite IH. reflexivity.
  - destruct (split_lines r) as [|l ls].
    + simpl in IH. subst r. reflexivity.
    + destruct ls as [|l' ls]; simpl in *; rewrite IH; reflexivity.
Qed.

Lemma split_lines_no_newline (s : string) :
  Forall (fun l => contains newline_char l = false) (split_lines s).
Proof.
  induction s as [|c r IH]; simpl.
  - constructor; [reflexivity | constructor].
  - destruct (Ascii.eqb c newline_char) eqn:E.
    + constructor; [reflexivity | exact IH].
    + destruct (split_lines r) as [|l ls].
      * constructor; [simpl; rewrite E; reflexivity | constructor].
      * inversion IH; subst. constructor; [simpl; rewrite E; assumption | assumption].
Qed.

End Strings.

(* ================================================================= *)
(** ** What each function does, step by step *)

Section Runs.

Lemma calls_app (t u : trace) : calls (t ++ u) = (calls t ++ calls u)%list.
Proof. apply filter_app. Qed.

Lemma calls_secho (t : trace) (m : message) (c : color) :
  calls (t ++ [Secho m c]) = calls t.
Proof. rewrite calls_app. simpl. apply app_nil_r. Qed.

Lemma calls_diagnostic (t : trace) (v : bool) (s : string) :
  calls (t ++ diagnostic v s) = calls t.
Proof. destruct v; simpl; [apply calls_secho | rewrite app_nil_r; reflexivity]. Qed.

Lemma when_diagnostic (v : bool) (s : string) (w : world) (t : trace) :
  when v (secho (Text s) CYAN) w t = (Return tt, (t ++ diagnostic v s)%list).
Proof. destruct v; simpl; [reflexivity | rewrite app_nil_r; reflexivity]. Qed.

(** [lookup_instance_id], unfolded: the echo, the command, and the three
    ways it ends. *)
Lemma lookup_instance_id_run (instance_name profile : pyval) (verbose : bool)
    (w : world) (t : trace) :
  let cmd := describe_instances_cmd instance_name profile in
  let p := shell w (List.length (calls t)) cmd in
  let t1 := (t ++ Secho (Text ("Looking up the instance ID of " ++ py_str instance_name)) MAGENTA
               :: diagnostic verbose cmd ++ [Subprocess DescribeInstances cmd])%list in
  let instance_id := strip (stdout p) in
  let t2 := (t1 ++ diagnostic verbose ("instance_id=" ++ repr_str instance_id))%list in
  lookup_instance_id instance_name profile verbose w t =
    if returncode p =? 0 then
      if is_empty instance_id then
        (Exit 1, (t2 ++ [Secho (Text ("Could not find instance ID for "
                                        ++ py_str instance_name)) RED])%list)
      else if contains newline_char instance_id then
        (Exit 1, (t2 ++ [Secho (Text "Found more than one instance. This is not supported at the moment.") RED])%list)
      else (Return instance_id, t2)
    else
      (Exit 1, (t1 ++ [Secho (Text ("Failed to lookup the instance ID of "
                                      ++ py_str instance_name)) RED])%list).
Proof.
  intros cmd p t1 instance_id t2.
  unfold lookup_instance_id, try_except, bind, subprocess_check_output, bind,
    subprocess_run, secho at 1.
  fold cmd. rewrite when_diagnostic.
  rewrite calls_diagnostic, calls_secho. fold p.
  assert (E1 : (((t ++ [Secho (Text ("Looking up the instance ID of " ++ py_str instance_name)) MAGENTA])
                 ++ diagnostic verbose cmd) ++ [Subprocess DescribeInstances cmd])%list = t1).
  { unfold t1. rewrite <- !app_assoc. reflexivity. }
  rewrite E1.
  destruct (returncode p =? 0) eqn:R; simpl; [|reflexivity].
  fold instance_id. rewrite when_diagnostic. fold t2.
  destruct (is_empty instance_id); simpl; [reflexivity|].
  destruct (contains newline_char instance_id); reflexivity.
Qed.

(** [lookup_dns_from_vpc_endpoint], unfolded. *)
Lemma lookup_dns_from_vpc_endpoint_run (endpoint_name profile : pyval)
    (verbose : bool) (w : world) (t : trace) :
  let cmd := describe_vpc_endpoints_cmd endpoint_name profile in
  let p := shell w (List.length (calls t)) cmd in
  let t1 := (t ++ Secho (Text ("Looking up the DNS from VPC endpoint " ++ py_str endpoint_name)) MAGENTA
               :: diagnostic verbose cmd ++ [Subprocess DescribeVpcEndpoints cmd])%list in
  let dns_name := strip (stdout p) in
  let t2 := (t1 ++ diagnostic verbose ("dns_name=" ++ repr_str dns_name))%list in
  lookup_dns_from_vpc_endpoint endpoint_name profile verbose w t =
    if returncode p =? 0 then
      if is_empty dns_name then
        (Exit 1, (t2 ++ [Secho (Text ("Could not find DNS for "
                                        ++ py_str endpoint_name)) RED])%list)
      else (Return dns_name, t2)
    else
      (Exit 1, (t1 ++ [Secho (Text ("Failed to lookup the DNS of "
                                      ++ py_str endpoint_name)) RED])%list).
Proof.
  intros cmd p t1 dns_name t2.
  unfold lookup_dns_from_vpc_endpoint, try_except, bind, subprocess_check_output,
    bind, subprocess_run, secho at 1.
  fold cmd. rewrite when_diagnostic.
  rewrite calls_diagnostic, calls_secho. fold p.
  assert (E1 : (((t ++ [Secho (Text ("Looking up the DNS from VPC endpoint " ++ py_str endpoint_name)) MAGENTA])
                 ++ diagnostic verbose cmd) ++ [Subprocess DescribeVpcEndpoints cmd])%list = t1).
  { unfold t1. rewrite <- !app_assoc. reflexivity. }
  rewrite E1.
  destruct (returncode p =? 0) eqn:R; simpl; [|reflexivity].
  fold dns_name. rewrite when_diagnostic. fold t2.
  destruct (is_empty dns_name); reflexivity.
Qed.

(** [start_ssm_session], unfolded: whatever the session transport
    answers, the function returns. *)
Lemma start_ssm_session_run (id host rport lport profile : pyval)
    (verbose : bool) (w : world) (t : trace) :
  let cmd := start_session_cmd id host rport lport profile in
  start_ssm_session id host rport lport profile verbose w t =
    (Return tt,
     (t ++ Secho (Text "Establishing an SSM session") MAGENTA
        :: diagnostic verbose cmd ++ [Subprocess StartSession cmd])%list).
Proof.
  intros cmd.
  unfold start_ssm_session, try_except, bind, subprocess_run, secho at 1.
  fold cmd. rewrite when_diagnostic. simpl.
  rewrite <- !app_assoc. reflexivity.
Qed.

(** [parse_jumps_from_config], unfolded. *)
Lemma parse_jumps_from_config_run (w : world) (t : trace) :
  parse_jumps_from_config w t =
    match load_config (config_yaml w) with
    | inr jumps => (Return jumps, t)
    | inl e => (Exit 1, (t ++ [Secho (TextAndError config_error_text e) RED])%list)
    end.
Proof.
  unfold parse_jumps_from_config, try_except, lift.
  destruct (load_config (config_yaml w)); reflexivity.
Qed.

End Runs.

(* ================================================================= *)
(** ** Stripping a text, line by line *)

Section Lines.

Lemma join_cons2 (l l' : string) (r : list string) :
  join nl (l :: l' :: r) = l ++ nl ++ join nl (l' :: r).
Proof. reflexivity. Qed.

Lemma all_space_join (ls : list string) :
  all_space (join nl ls) = forallb all_space ls.
Proof.
  induction ls as [|l r IH]; [reflexivity|].
  destruct r as [|l' r'].
  - simpl. rewrite andb_true_r. reflexivity.
  - rewrite join_cons2, !all_space_app, IH. reflexivity.
Qed.

Lemma forallb_all_space_filter (ls : list string) :
  forallb all_space ls =
    match filter (fun l => negb (all_space l)) ls with
    | [] => true
    | _ :: _ => false
    end.
Proof.
  induction ls as [|l r IH]; [reflexivity|].
  simpl. destruct (all_space l); simpl; [exact IH | reflexivity].
Qed.

Lemma strip_blank_prefix (a s : string) :
  all_space a = true -> strip (a ++ s) = strip s.
Proof. intros H. unfold strip. rewrite lstrip_app_blank by exact H. reflexivity. Qed.

Lemma strip_blank_suffix (s b : string) :
  all_space s = false -> all_space b = true -> strip (s ++ b) = strip s.
Proof.
  intros Hs Hb. unfold strip.
  rewrite lstrip_app_nonblank by exact Hs.
  apply rstrip_app_blank, Hb.
Qed.

Lemma strip_two_parts (a b : string) :
  all_space a = false -> all_space b = false ->
  strip (a ++ nl ++ b) = lstrip a ++ nl ++ rstrip b.
Proof.
  intros Ha Hb. unfold strip.
  rewrite lstrip_app_nonblank by exact Ha.
  rewrite <- app_assoc_s, rstrip_app_nonblank by exact Hb.
  apply app_assoc_s.
Qed.

(** The stripped text against the lines that are not blank: none, the
    text strips to nothing; one, the text strips to that line, stripped;
    more, the stripped text holds a newline. *)
Lemma strip_join_lines (ls : list string) :
  match filter (fun l => negb (all_space l)) ls with
  | [] => all_space (join nl ls) = true
  | [l] => strip (join nl ls) = strip l /\ all_space l = false
  | _ :: _ :: _ => contains newline_char (strip (join nl ls)) = true
  end.
Proof.
  induction ls as [|l r IH]; [reflexivity|].
  destruct r as [|l' r'].
  - simpl. destruct (all_space l) eqn:E; simpl; auto.
  - rewrite join_cons2.
    pose proof (all_space_join (l' :: r')) as AJ.
    rewrite forallb_all_space_filter in AJ.
    set (J := join nl (l' :: r')) in *.
    set (F := filter (fun l => negb (all_space l)) (l' :: r')) in *.
    change (filter (fun l => negb (all_space l)) (l :: l' :: r'))
      with (if negb (all_space l) then l :: F else F).
    destruct (all_space l) eqn:E; simpl negb; cbv iota.
    + assert (B : all_space (l ++ nl) = true)
        by (rewrite all_space_app, E; reflexivity).
      rewrite <- app_assoc_s, strip_blank_prefix by exact B.
      rewrite all_space_app, B. exact IH.
    + destruct F as [|x F'].
      * split; [|exact E].
        apply strip_blank_suffix; [exact E|].
        rewrite all_space_app, AJ. reflexivity.
      * rewrite strip_two_parts by assumption.
        rewrite !contains_app.
        change (contains newline_char nl) with true.
        rewrite orb_true_r. reflexivity.
Qed.

(** The same, for a text and its lines. *)
Lemma strip_by_lines (text : string) :
  match nonblank_lines text with
  | [] => is_empty (strip text) = true
  | [l] => strip text = strip l /\ is_empty (strip l) = false
           /\ contains newline_char (strip l) = false
  | _ :: _ :: _ => is_empty (strip text) = false
                   /\ contains newline_char (strip text) = true
  end.
Proof.
  pose proof (strip_join_lines (split_lines text)) as H.
  pose proof (all_space_join (split_lines text)) as A.
  rewrite forallb_all_space_filter in A.
  pose proof (split_lines_no_newline text) as N.
  rewrite join_split_lines in H, A.
  unfold nonblank_lines.
  assert (I : forall l, In l (filter (fun l => negb (all_space l)) (split_lines text)) ->
                        contains newline_char l = false).
  { intros l Hl. apply filter_In in Hl as [Hl _].
    rewrite Forall_forall in N. apply N, Hl. }
  destruct (filter (fun l => negb (all_space l)) (split_lines text)) as [|l [|l' F]].
  - rewrite is_empty_strip. exact H.
  - destruct H as [H E]. rewrite is_empty_strip. repeat split; auto.
    apply contains_strip, I. left. reflexivity.
  - rewrite is_empty_strip. split; [exact A | exact H].
Qed.

End Lines.

(* ================================================================= *)
(** ** The commands a function runs *)

Section Calls.

Lemma calls_cons_secho (m : message) (c : color) (t : trace) :
  calls (Secho m c :: t) = calls t.
Proof. reflexivity. Qed.

Lemma calls_echo_diag_call (t : trace) (m : message) (c : color) (v : bool)
    (s : string) (site : call_site) (cmd : string) :
  calls (t ++ Secho m c :: diagnostic v s ++ [Subprocess site cmd])
  = (calls t ++ [Subprocess site cmd])%list.
Proof.
  rewrite calls_app, calls_cons_secho.
  change (calls (diagnostic v s ++ [Subprocess site cmd]))
    with (calls ([] ++ diagnostic v s ++ [Subprocess site cmd])).
  rewrite app_assoc, calls_app, calls_diagnostic. reflexivity.
Qed.

Lemma calls_lookup_instance_id (n p : pyval) (v : bool) (w : world) (t : trace) :
  calls (snd (lookup_instance_id n p v w t))
  = (calls t ++ [Subprocess DescribeInstances (describe_instances_cmd n p)])%list.
Proof.
  rewrite lookup_instance_id_run. cbv zeta.
  repeat match goal with |- context [if ?b then _ else _] => destruct b end;
    cbn [snd];
    rewrite ?calls_secho, ?calls_diagnostic; apply calls_echo_diag_call.
Qed.

Lemma calls_lookup_dns_from_vpc_endpoint (n p : pyval) (v : bool) (w : world)
    (t : trace) :
  calls (snd (lookup_dns_from_vpc_endpoint n p v w t))
  = (calls t ++ [Subprocess DescribeVpcEndpoints (describe_vpc_endpoints_cmd n p)])%list.
Proof.
  rewrite lookup_dns_from_vpc_endpoint_run. cbv zeta.
  repeat match goal with |- context [if ?b then _ else _] => destruct b end;
    cbn [snd];
    rewrite ?calls_secho, ?calls_diagnostic; apply calls_echo_diag_call.
Qed.

Lemma calls_start_ssm_session (id host rport lport profile : pyval) (v : bool)
    (w : world) (t : trace) :
  calls (snd (start_ssm_session id host rport lport profile v w t))
  = (calls t ++ [Subprocess StartSession
                   (start_session_cmd id host rport lport profile)])%list.
Proof.
  rewrite start_ssm_session_run. cbv zeta. cbn [snd].
  apply calls_echo_diag_call.
Qed.

Lemma in_calls (e : event) (t : trace) :
  is_subprocess e = true -> In e t -> In e (calls t).
Proof. intros H I. apply filter_In. split; assumption. Qed.

(** [jump], unfolded along its stages. *)
Lemma jump_run (jump_name : string) (v : bool) (w : world) (t : trace) :
  jump jump_name v w t =
    match load_config (config_yaml w) with
    | inl e => (Exit 1, (t ++ [Secho (TextAndError config_error_text e) RED])%list)
    | inr jumps =>
        match dict_get jumps (PStr jump_name) with
        | None =>
            (Exit 1, (t ++ [Secho (Text ("Jump " ++ jump_name
                                           ++ " not specified in config.yaml")) RED])%list)
        | Some target =>
            match lookup_instance_id (target_instance_name target)
                    (aws_profile target) v w t with
            | (Return id, t1) =>
                if truthy (remote_host_is_a_vpc_endpoint target) then
                  match lookup_dns_from_vpc_endpoint (remote_host target)
                          (aws_profile target) v w t1 with
                  | (Return dns, t2) =>
                      start_ssm_session (PStr id) (PStr dns) (remote_port target)
                        (local_port target) (aws_profile target) v w t2
                  | (Exit c, t2) => (Exit c, t2)
                  | (Raise e, t2) => (Raise e, t2)
                  end
                else
                  start_ssm_session (PStr id) (remote_host target) (remote_port target)
                    (local_port target) (aws_profile target) v w t1
            | (Exit c, t1) => (Exit c, t1)
            | (Raise e, t1) => (Raise e, t1)
            end
        end
    end.
Proof.
  unfold jump. unfold bind at 1. rewrite parse_jumps_from_config_run.
  destruct (load_config (config_yaml w)) as [e|jumps]; [reflexivity|].
  destruct (dict_get jumps (PStr jump_name)) as [target|]; [|reflexivity].
  unfold bind at 1.
  destruct (lookup_instance_id _ _ v w t) as [[id|c|e] t1]; try reflexivity.
  unfold bind at 1.
  destruct (truthy (remote_host_is_a_vpc_endpoint target)); [|reflexivity].
  unfold bind at 1.
  destruct (lookup_dns_from_vpc_endpoint _ _ v w t1) as [[dns|c|e] t2]; reflexivity.
Qed.

End Calls.

(* ================================================================= *)
(** ** The tunnel launcher *)

Section TunnelLauncher.

Lemma final_snoc (t : trace) (e : event) : final (t ++ [e]) = Some e.
Proof. unfold final. rewrite rev_unit. reflexivity. Qed.

(** Whatever the session transport answers, [start_ssm_session] returns
    and prints nothing in red: [subprocess.run] is called without
    [check=True], so the handler of [CalledProcessError] never runs. *)
Lemma start_ssm_session_returns (id host rport lport profile : pyval)
    (v : bool) (w : world) (t : trace) :
  fst (start_ssm_session id host rport lport profile v w t) = Return tt.
Proof. rewrite start_ssm_session_run. reflexivity. Qed.

(** C1, at a failing input. The session transport ends with exit status
    255; the claim asks for a report and exit status 1, the run returns
    normally (exit status 0) and nothing is printed in red. *)
Theorem C1_failed_session_exits_zero :
  let r := run_jump failing_transport_world "db-jump" false in
  (exists cmd, In (Subprocess StartSession cmd) (snd r)
               /\ returncode (shell failing_transport_world 1 cmd) = 255)
  /\ fst r = Return tt
  /\ exit_status (fst r) = 0
  /\ (forall m, ~ In (Secho m RED) (snd r)).
Proof.
  cbv zeta. split; [|split; [|split]].
  - eexists. split; [|reflexivity].
    vm_compute. right. right. right. left. reflexivity.
  - reflexivity.
  - reflexivity.
  - intros m H. vm_compute in H.
    repeat (destruct H as [H|H]; [discriminate H|]). exact H.
Qed.

End TunnelLauncher.

(* ================================================================= *)
(** ** The instance lookup *)

Section InstanceLookup.

(** C2. When the compute-directory query succeeds, the lines of its output
    that are not blank decide the outcome of [lookup_instance_id]: none,
    the message "Could not find instance ID" and exit 1 (NotFoundError);
    two or more, the message "Found more than one instance" and exit 1
    (AmbiguousResultError); exactly one, that line, stripped, is
    returned. *)
Theorem C2_instance_lookup_by_lines (instance_name profile : pyval)
    (verbose : bool) (w : world) (t : trace) :
  let p := shell w (List.length (calls t))
             (describe_instances_cmd instance_name profile) in
  let r := lookup_instance_id instance_name profile verbose w t in
  returncode p = 0 ->
  match nonblank_lines (stdout p) with
  | [] =>
      fst r = Exit 1
      /\ final (snd r) = Some (Secho (Text ("Could not find instance ID for "
                                             ++ py_str instance_name)) RED)
  | [line] => fst r = Return (strip line)
  | _ :: _ :: _ =>
      fst r = Exit 1
      /\ final (snd r) = Some (Secho (Text "Found more than one instance. This is not supported at the moment.") RED)
  end.
Proof.
  intros p r Hp. subst r.
  rewrite lookup_instance_id_run. cbv zeta. fold p.
  rewrite Hp. change (0 =? 0) with true. cbv iota.
  pose proof (strip_by_lines (stdout p)) as L.
  destruct (nonblank_lines (stdout p)) as [|l [|l' ls]].
  - rewrite L. cbn [fst snd]. split; [reflexivity | apply final_snoc].
  - destruct L as (E & NE & NN). rewrite E, NE, NN. reflexivity.
  - destruct L as (NE & NN). rewrite NE, NN. cbn [fst snd].
    split; [reflexivity | apply final_snoc].
Qed.

Lemma C2_witness :
  fst (lookup_instance_id (PStr "db-bastion") (PStr "prod") true calm_world [])
  = Return (strip "i-0abc").
Proof.
  apply (C2_instance_lookup_by_lines (PStr "db-bastion") (PStr "prod") true
           calm_world []).
  reflexivity.
Defined.

End InstanceLookup.

(* ================================================================= *)
(** ** The command dispatcher *)

Section Dispatcher.

Variable w : world.
Variable jump_name : string.
Variable verbose : bool.

Lemma calls_after_instance_lookup (n p : pyval) (o : outcome string) (t1 : trace) :
  lookup_instance_id n p verbose w [] = (o, t1) ->
  calls t1 = [Subprocess DescribeInstances (describe_instances_cmd n p)].
Proof.
  intros H. pose proof (calls_lookup_instance_id n p verbose w []) as C.
  rewrite H in C. exact C.
Qed.

Lemma describe_vpc_endpoints_cmd_text (endpoint profile : pyval) :
  describe_vpc_endpoints_cmd endpoint profile
  = "aws --profile " ++ py_str profile
      ++ " ec2 describe-vpc-endpoints --query " ++ dq
      ++ "VpcEndpoints[0].DnsEntries[0].DnsName" ++ dq
      ++ " --filters Name=tag:Name,Values=" ++ py_str endpoint
      ++ " --output text".
Proof.
  unfold describe_vpc_endpoints_cmd. cbv zeta.
  repeat rewrite app_assoc_s. reflexivity.
Qed.

Lemma describe_instances_cmd_text (instance profile : pyval) :
  describe_instances_cmd instance profile
  = "aws --profile " ++ py_str profile
      ++ " ec2 describe-instances --query " ++ dq
      ++ "Reservations[*].Instances[*].[InstanceId]" ++ dq
      ++ " --output text --filters Name=tag:Name,Values=" ++ py_str instance
      ++ " Name=instance-state-name,Values=running --output text".
Proof.
  unfold describe_instances_cmd. cbv zeta.
  repeat rewrite app_assoc_s. reflexivity.
Qed.

(** C6. A name that the loaded config does not hold: the run prints
    "Jump ... not specified in config.yaml", ends with exit status 1 and
    runs no command at all. *)
Theorem C6_unknown_jump_exits_without_calls (jumps : pydict Jump) :
  load_config (config_yaml w) = inr jumps ->
  dict_get jumps (PStr jump_name) = None ->
  let r := run_jump w jump_name verbose in
  exit_status (fst r) = 1
  /\ calls (snd r) = []
  /\ snd r = [Secho (Text ("Jump " ++ jump_name ++ " not specified in config.yaml")) RED].
Proof.
  intros L G r. subst r. unfold run_jump.
  rewrite jump_run, L, G. repeat split.
Qed.

(** C3. A jump whose flag [remote_host_is_a_vpc_endpoint] is false (or
    any other false object): no command of the run is an
    endpoint-directory query, and once the instance is found the tunnel
    launcher is given the field [remote_host] itself. *)
Theorem C3_direct_host_is_passed_verbatim (jumps : pydict Jump) (target : Jump) :
  load_config (config_yaml w) = inr jumps ->
  dict_get jumps (PStr jump_name) = Some target ->
  truthy (remote_host_is_a_vpc_endpoint target) = false ->
  let r := run_jump w jump_name verbose in
  (forall cmd, ~ In (Subprocess DescribeVpcEndpoints cmd) (snd r))
  /\ (forall id t1,
        lookup_instance_id (target_instance_name target) (aws_profile target)
          verbose w [] = (Return id, t1) ->
        r = start_ssm_session (PStr id) (remote_host target) (remote_port target)
              (local_port target) (aws_profile target) verbose w t1
        /\ calls (snd r)
           = [ Subprocess DescribeInstances
                 (describe_instances_cmd (target_instance_name target)
                    (aws_profile target));
               Subprocess StartSession
                 (start_session_cmd (PStr id) (remote_host target)
                    (remote_port target) (local_port target)
                    (aws_profile target)) ]).
Proof.
  intros L G F r. subst r. unfold run_jump.
  rewrite jump_run, L, G, F.
  destruct (lookup_instance_id (target_instance_name target) (aws_profile target)
              verbose w []) as [o t1] eqn:E.
  pose proof (calls_after_instance_lookup _ _ _ _ E) as C1.
  split.
  - intros cmd H. apply in_calls in H; [|reflexivity].
    destruct o as [id|c|e]; cbn [snd] in H.
    + rewrite calls_start_ssm_session, C1 in H.
      destruct H as [H|[H|[]]]; discriminate H.
    + rewrite C1 in H. destruct H as [H|[]]; discriminate H.
    + rewrite C1 in H. destruct H as [H|[]]; discriminate H.
  - intros id t1' H. injection H as -> ->.
    split; [reflexivity|].
    rewrite calls_start_ssm_session, C1. reflexivity.
Qed.

(** C4. A jump whose flag is true: once the instance is found, the
    endpoint directory is queried with [remote_host] as the name tag and
    [aws_profile] as the profile, and when that query answers a name, the
    tunnel launcher is given that name (the output, stripped) as its
    remote host. *)
Theorem C4_endpoint_host_is_the_looked_up_dns (jumps : pydict Jump)
    (target : Jump) (id : string) (t1 : trace) :
  load_config (config_yaml w) = inr jumps ->
  dict_get jumps (PStr jump_name) = Some target ->
  truthy (remote_host_is_a_vpc_endpoint target) = true ->
  lookup_instance_id (target_instance_name target) (aws_profile target)
    verbose w [] = (Return id, t1) ->
  let query := "aws --profile " ++ py_str (aws_profile target)
                 ++ " ec2 describe-vpc-endpoints --query " ++ dq
                 ++ "VpcEndpoints[0].DnsEntries[0].DnsName" ++ dq
                 ++ " --filters Name=tag:Name,Values=" ++ py_str (remote_host target)
                 ++ " --output text" in
  let p := shell w 1 query in
  let dns := strip (stdout p) in
  returncode p = 0 ->
  is_empty dns = false ->
  exists t2,
    lookup_dns_from_vpc_endpoint (remote_host target) (aws_profile target)
      verbose w t1 = (Return dns, t2)
    /\ run_jump w jump_name verbose
       = start_ssm_session (PStr id) (PStr dns) (remote_port target)
           (local_port target) (aws_profile target) verbose w t2
    /\ calls (snd (run_jump w jump_name verbose))
       = [ Subprocess DescribeInstances
             (describe_instances_cmd (target_instance_name target)
                (aws_profile target));
           Subprocess DescribeVpcEndpoints query;
           Subprocess StartSession
             (start_session_cmd (PStr id) (PStr dns) (remote_port target)
                (local_port target) (aws_profile target)) ].
Proof.
  intros L G F E query p dns Hp Hd.
  pose proof (calls_after_instance_lookup _ _ _ _ E) as C1.
  pose proof (lookup_dns_from_vpc_endpoint_run (remote_host target)
                (aws_profile target) verbose w t1) as R.
  cbv zeta in R. rewrite C1 in R. cbn [List.length] in R.
  rewrite describe_vpc_endpoints_cmd_text in R.
  fold query in R. fold p in R. fold dns in R.
  rewrite Hp, Hd in R. change (0 =? 0) with true in R. cbv iota in R.
  eexists. split; [exact R|].
  unfold run_jump. rewrite jump_run, L, G, E, F, R.
  split; [reflexivity|].
  rewrite calls_start_ssm_session, calls_diagnostic, calls_echo_diag_call, C1.
  reflexivity.
Qed.

End Dispatcher.

(* ================================================================= *)
(** ** The endpoint lookup *)

Section EndpointLookup.

(** The two ways [lookup_dns_from_vpc_endpoint] fails, at any point of a
    run: the query fails, or it prints nothing but white space. *)
Lemma lookup_dns_from_vpc_endpoint_errors (endpoint profile : pyval)
    (verbose : bool) (w : world) (t : trace) :
  let p := shell w (List.length (calls t))
             (describe_vpc_endpoints_cmd endpoint profile) in
  let r := lookup_dns_from_vpc_endpoint endpoint profile verbose w t in
  (returncode p <> 0 ->
   fst r = Exit 1
   /\ final (snd r) = Some (Secho (Text ("Failed to lookup the DNS of "
                                          ++ py_str endpoint)) RED))
  /\ (returncode p = 0 -> is_empty (strip (stdout p)) = true ->
      fst r = Exit 1
      /\ final (snd r) = Some (Secho (Text ("Could not find DNS for "
                                             ++ py_str endpoint)) RED)).
Proof.
  intros p r. subst r. rewrite lookup_dns_from_vpc_endpoint_run. cbv zeta.
  fold p. split.
  - intros H. apply Z.eqb_neq in H. rewrite H. cbn [fst snd].
    split; [reflexivity | apply final_snoc].
  - intros H E. rewrite H, E. change (0 =? 0) with true. cbn [fst snd].
    split; [reflexivity | apply final_snoc].
Qed.

(** C8. In a run that reaches the endpoint lookup: when the query fails,
    the run prints "Failed to lookup the DNS of ..." (LookupError) and
    ends with exit status 1; when the query prints nothing but white
    space, the run prints "Could not find DNS for ..." (NotFoundError) and
    ends with exit status 1. In both cases no session command is run. *)
Theorem C8_endpoint_lookup_errors_are_fatal (w : world) (jump_name : string)
    (verbose : bool) (jumps : pydict Jump) (target : Jump) (id : string)
    (t1 : trace) :
  load_config (config_yaml w) = inr jumps ->
  dict_get jumps (PStr jump_name) = Some target ->
  truthy (remote_host_is_a_vpc_endpoint target) = true ->
  lookup_instance_id (target_instance_name target) (aws_profile target)
    verbose w [] = (Return id, t1) ->
  let p := shell w 1 (describe_vpc_endpoints_cmd (remote_host target)
                        (aws_profile target)) in
  let r := run_jump w jump_name verbose in
  returncode p <> 0 \/ is_empty (strip (stdout p)) = true ->
  fst (lookup_dns_from_vpc_endpoint (remote_host target) (aws_profile target)
         verbose w t1) = Exit 1
  /\ fst r = Exit 1
  /\ exit_status (fst r) = 1
  /\ final (snd r)
     = Some (Secho (Text ((if returncode p =? 0 then "Could not find DNS for "
                           else "Failed to lookup the DNS of ")
                          ++ py_str (remote_host target))) RED)
  /\ (forall cmd, ~ In (Subprocess StartSession cmd) (snd r)).
Proof.
  intros L G F E p r H. subst r.
  pose proof (calls_after_instance_lookup _ _ _ _ _ _ E) as C1.
  pose proof (lookup_dns_from_vpc_endpoint_errors (remote_host target)
                (aws_profile target) verbose w t1) as [A B].
  pose proof (calls_lookup_dns_from_vpc_endpoint (remote_host target)
                (aws_profile target) verbose w t1) as C2.
  rewrite C1 in A, B, C2. cbn [List.length] in A, B. fold p in A, B.
  unfold run_jump. rewrite jump_run, L, G, E, F.
  destruct (lookup_dns_from_vpc_endpoint (remote_host target) (aws_profile target)
              verbose w t1) as [o t2] eqn:D.
  cbn [fst snd] in A, B, C2.
  assert (X : o = Exit 1
              /\ final t2 = Some (Secho (Text ((if returncode p =? 0
                                                then "Could not find DNS for "
                                                else "Failed to lookup the DNS of ")
                                               ++ py_str (remote_host target))) RED)).
  { destruct (returncode p =? 0) eqn:R.
    - apply Z.eqb_eq in R. destruct H as [H|H]; [contradiction|]. auto.
    - apply Z.eqb_neq in R. auto. }
  destruct X as [-> X]. cbn [fst snd exit_status].
  repeat split; try assumption.
  intros cmd I. apply in_calls in I; [|reflexivity]. rewrite C2 in I.
  destruct I as [I|[I|[]]]; discriminate I.
Qed.

End EndpointLookup.

(* ================================================================= *)
(** ** The properties at concrete runs *)

Section ConcreteRuns.

Lemma C6_witness :
  exit_status (fst (run_jump calm_world "nope" false)) = 1
  /\ calls (snd (run_jump calm_world "nope" false)) = []
  /\ snd (run_jump calm_world "nope" false)
     = [Secho (Text "Jump nope not specified in config.yaml") RED].
Proof.
  apply (C6_unknown_jump_exits_without_calls calm_world "nope" false
           [(PStr "db-jump", db_jump (PStr "prod"))]); reflexivity.
Defined.

Lemma C3_witness :
  calls (snd (run_jump calm_world "db-jump" true))
  = [ Subprocess DescribeInstances
        (describe_instances_cmd (PStr "db-bastion") (PStr "prod"));
      Subprocess StartSession
        (start_session_cmd (PStr "i-0abc") (PStr "10.0.1.5") (PInt 5432)
           (PInt 15432) (PStr "prod")) ].
Proof.
  exact (proj2 (proj2 (C3_direct_host_is_passed_verbatim calm_world "db-jump" true
                         [(PStr "db-jump", db_jump (PStr "prod"))]
                         (db_jump (PStr "prod")) eq_refl eq_refl eq_refl)
                  "i-0abc"
                  (snd (lookup_instance_id (PStr "db-bastion") (PStr "prod") true
                          calm_world []))
                  eq_refl)).
Defined.

Lemma C4_witness :
  exists t2,
    run_jump endpoint_world "cache-jump" false
    = start_ssm_session (PStr "i-0abc") (PStr "vpce-1.example") (PInt 6379)
        (PInt 16379) (PStr "prod") false endpoint_world t2.
Proof.
  destruct (C4_endpoint_host_is_the_looked_up_dns endpoint_world "cache-jump" false
              [(PStr "cache-jump", cache_jump)] cache_jump "i-0abc"
              (snd (lookup_instance_id (PStr "cache-bastion") (PStr "prod") false
                      endpoint_world []))
              eq_refl eq_refl eq_refl eq_refl eq_refl eq_refl)
    as (t2 & _ & H & _).
  exists t2. exact H.
Defined.

Lemma C8_witness :
  fst (run_jump endpoint_failing_world "cache-jump" true) = Exit 1
  /\ final (snd (run_jump endpoint_failing_world "cache-jump" true))
     = Some (Secho (Text "Failed to lookup the DNS of cache-endpoint") RED).
Proof.
  assert (N : 254 <> 0) by discriminate.
  destruct (C8_endpoint_lookup_errors_are_fatal endpoint_failing_world "cache-jump"
              true [(PStr "cache-jump", cache_jump)] cache_jump "i-0abc"
              (snd (lookup_instance_id (PStr "cache-bastion") (PStr "prod") true
                      endpoint_failing_world []))
              eq_refl eq_refl eq_refl eq_refl
              (or_introl N))
    as (_ & A & _ & B & _).
  split; [exact A | exact B].
Defined.

End ConcreteRuns.

(* ================================================================= *)
(** ** The example of the specification *)

Section Example_db_jump.

Variable profile : pyval.
Variable verbose : bool.
Variable sh : nat -> string -> CompletedProcess.

Lemma load_db_jump_config :
  load_config (db_jump_config profile) = inr [(PStr "db-jump", db_jump profile)].
Proof. reflexivity. Qed.

(** C5. For the jump [db-jump] (instance [db-bastion], remote host
    [10.0.1.5], remote port 5432, local port 15432, not a VPC endpoint):
    the parameters of the session are [host], [portNumber] and
    [localPortNumber], each a list of one string; the first command of the
    run is the instance query, filtered by the tag [Name=db-bastion] and
    the state [running]; and when that query answers one identifier, the
    session command carries those parameters as JSON. *)
Theorem C5_db_jump_example :
  let w := {| config_yaml := db_jump_config profile; shell := sh |} in
  let query :=
    "aws --profile " ++ py_str profile
      ++ " ec2 describe-instances --query " ++ dq
      ++ "Reservations[*].Instances[*].[InstanceId]" ++ dq
      ++ " --output text --filters Name=tag:Name,Values=db-bastion"
      ++ " Name=instance-state-name,Values=running --output text" in
  let r := run_jump w "db-jump" verbose in
  ssm_parameters (PStr "10.0.1.5") (PInt 5432) (PInt 15432)
  = [ ("host", ["10.0.1.5"]); ("portNumber", ["5432"]);
      ("localPortNumber", ["15432"]) ]
  /\ hd_error (calls (snd r)) = Some (Subprocess DescribeInstances query)
  /\ (forall id,
        returncode (sh O query) = 0 ->
        strip (stdout (sh O query)) = id ->
        is_empty id = false ->
        contains newline_char id = false ->
        calls (snd r)
        = [ Subprocess DescribeInstances query;
            Subprocess StartSession
              ("aws --profile " ++ py_str profile
                 ++ " ssm start-session --target " ++ id
                 ++ " --document-name AWS-StartPortForwardingSessionToRemoteHost"
                 ++ " --parameters " ++ sq
                 ++ "{" ++ dq ++ "host" ++ dq ++ ": [" ++ dq ++ "10.0.1.5" ++ dq ++ "], "
                 ++ dq ++ "portNumber" ++ dq ++ ": [" ++ dq ++ "5432" ++ dq ++ "], "
                 ++ dq ++ "localPortNumber" ++ dq ++ ": [" ++ dq ++ "15432" ++ dq ++ "]}"
                 ++ sq) ]).
Proof.
  intros w query r.
  assert (Q : describe_instances_cmd (PStr "db-bastion") profile = query).
  { rewrite describe_instances_cmd_text. unfold query.
    repeat rewrite app_assoc_s. reflexivity. }
  assert (R : r = match lookup_instance_id (PStr "db-bastion") profile verbose w [] with
                  | (Return id, t1) =>
                      start_ssm_session (PStr id) (PStr "10.0.1.5") (PInt 5432)
                        (PInt 15432) profile verbose w t1
                  | (Exit c, t1) => (Exit c, t1)
                  | (Raise e, t1) => (Raise e, t1)
                  end).
  { unfold r, run_jump. rewrite jump_run.
    change (config_yaml w) with (db_jump_config profile).
    rewrite load_db_jump_config. reflexivity. }
  split; [reflexivity|].
  destruct (lookup_instance_id (PStr "db-bastion") profile verbose w [])
    as [o t1] eqn:E.
  pose proof (calls_after_instance_lookup _ _ _ _ _ _ E) as C1.
  rewrite Q in C1.
  split.
  - rewrite R. destruct o as [id|c|e]; cbn [snd];
      rewrite ?calls_start_ssm_session, C1; reflexivity.
  - intros id Hp Hid Hne Hnl.
    rewrite lookup_instance_id_run in E. cbv zeta in E.
    cbn [List.length calls filter] in E. rewrite Q in E.
    change (shell w 0 query) with (sh O query) in E.
    rewrite Hp, Hid, Hne, Hnl in E. change (0 =? 0) with true in E.
    cbv iota in E. injection E as Eo _. subst o.
    rewrite R, calls_start_ssm_session, C1.
    cbn [app]. do 3 f_equal.
    unfold start_session_cmd. cbv zeta.
    repeat rewrite app_assoc_s. reflexivity.
Qed.

End Example_db_jump.

Lemma C5_witness :
  calls (snd (run_jump calm_world "db-jump" true))
  = [ Subprocess DescribeInstances
        (describe_instances_cmd (PStr "db-bastion") (PStr "prod"));
      Subprocess StartSession
        (start_session_cmd (PStr "i-0abc") (PStr "10.0.1.5") (PInt 5432)
           (PInt 15432) (PStr "prod")) ].
Proof.
  exact (proj2 (proj2 (C5_db_jump_example (PStr "prod") true
                         (answers (succeeded ("i-0abc" ++ nl))
                                  (succeeded ("vpce-1.example" ++ nl)))))
           "i-0abc" eq_refl eq_refl eq_refl eq_refl).
Defined.

(* ================================================================= *)
(** ** Verbose mode *)

Section Verbose.

Variable w : world.

Lemma quiet_app (t u : trace) : quiet (t ++ u) = (quiet t ++ quiet u)%list.
Proof. apply filter_app. Qed.

Lemma calls_quiet (t : trace) : calls (quiet t) = calls t.
Proof.
  induction t as [|e t IH]; [reflexivity|].
  destruct e as [m [| |]|site cmd]; simpl; try exact IH.
  f_equal. exact IH.
Qed.

Ltac quiet_norm :=
  unfold diagnostic; cbn [fst snd];
  repeat rewrite quiet_app; cbn [quiet filter is_diagnostic negb app];
  repeat rewrite <- app_assoc; cbn [app].

Lemma lookup_instance_id_verbose (n p : pyval) (t : trace) :
  let loud := lookup_instance_id n p true w t in
  let silent := lookup_instance_id n p false w (quiet t) in
  fst loud = fst silent /\ quiet (snd loud) = snd silent.
Proof.
  cbv zeta. rewrite !lookup_instance_id_run. cbv zeta.
  rewrite calls_quiet.
  destruct (returncode _ =? 0).
  - destruct (is_empty _).
    + split; [reflexivity | quiet_norm; reflexivity].
    + destruct (contains _ _); (split; [reflexivity | quiet_norm; reflexivity]).
  - split; [reflexivity | quiet_norm; reflexivity].
Qed.

Lemma lookup_dns_from_vpc_endpoint_verbose (n p : pyval) (t : trace) :
  let loud := lookup_dns_from_vpc_endpoint n p true w t in
  let silent := lookup_dns_from_vpc_endpoint n p false w (quiet t) in
  fst loud = fst silent /\ quiet (snd loud) = snd silent.
Proof.
  cbv zeta. rewrite !lookup_dns_from_vpc_endpoint_run. cbv zeta.
  rewrite calls_quiet.
  destruct (returncode _ =? 0).
  - destruct (is_empty _); (split; [reflexivity | quiet_norm; reflexivity]).
  - split; [reflexivity | quiet_norm; reflexivity].
Qed.

Lemma start_ssm_session_verbose (id host rport lport profile : pyval) (t : trace) :
  let loud := start_ssm_session id host rport lport profile true w t in
  let silent := start_ssm_session id host rport lport profile false w (quiet t) in
  fst loud = fst silent /\ quiet (snd loud) = snd silent.
Proof.
  cbv zeta. rewrite !start_ssm_session_run. cbv zeta.
  split; [reflexivity | quiet_norm; reflexivity].
Qed.

(** C9. The same world and the same name, with and without [--verbose]:
    the two runs end the same way, with the same exit status, they run the
    same commands in the same order (and so reach the same instance and
    the same remote host), and the trace of the verbose run, without its
    cyan echoes, is the trace of the other run. *)
Theorem C9_verbose_only_adds_diagnostics (jump_name : string) :
  let loud := run_jump w jump_name true in
  let silent := run_jump w jump_name false in
  fst loud = fst silent
  /\ exit_status (fst loud) = exit_status (fst silent)
  /\ calls (snd loud) = calls (snd silent)
  /\ quiet (snd loud) = snd silent.
Proof.
  cbv zeta.
  assert (H : fst (run_jump w jump_name true) = fst (run_jump w jump_name false)
              /\ quiet (snd (run_jump w jump_name true))
                 = snd (run_jump w jump_name false)).
  { unfold run_jump. rewrite !jump_run.
    destruct (load_config (config_yaml w)) as [e|jumps]; [split; reflexivity|].
    destruct (dict_get jumps (PStr jump_name)) as [target|]; [|split; reflexivity].
    pose proof (lookup_instance_id_verbose (target_instance_name target)
                  (aws_profile target) []) as [A1 A2].
    change (quiet []) with (@nil event) in A1, A2.
    destruct (lookup_instance_id _ _ true w []) as [o1 t1].
    destruct (lookup_instance_id _ _ false w []) as [o1' t1'].
    cbn [fst snd] in A1, A2. subst o1' t1'.
    destruct o1 as [id|c|e]; [|split; reflexivity|split; reflexivity].
    destruct (truthy (remote_host_is_a_vpc_endpoint target)).
    - pose proof (lookup_dns_from_vpc_endpoint_verbose (remote_host target)
                    (aws_profile target) t1) as [B1 B2].
      destruct (lookup_dns_from_vpc_endpoint _ _ true w t1) as [o2 t2].
      destruct (lookup_dns_from_vpc_endpoint _ _ false w (quiet t1)) as [o2' t2'].
      cbn [fst snd] in B1, B2. subst o2' t2'.
      destruct o2 as [dns|c|e]; [|split; reflexivity|split; reflexivity].
      apply start_ssm_session_verbose.
    - apply start_ssm_session_verbose. }
  destruct H as [H1 H2]. repeat split.
  - exact H1.
  - rewrite H1. reflexivity.
  - rewrite <- H2. symmetry. apply calls_quiet.
  - exact H2.
Qed.

End Verbose.

(* ================================================================= *)
(** ** The config store *)

Section ConfigStore.

(** Equality of keys is symmetric, and equal keys compare alike. *)
Lemma key_eqb_sym (a b : pyval) : key_eqb a b = key_eqb b a.
Proof.
  destruct a as [|x|x|x|x|x], b as [|y|y|y|y|y]; simpl; try reflexivity.
  - destruct x, y; reflexivity.
  - apply Z.eqb_sym.
  - apply String.eqb_sym.
Qed.

Lemma key_eqb_congr (a b c : pyval) :
  key_eqb a b = true -> key_eqb a c = key_eqb b c.
Proof.
  destruct a as [|x|x|x|x|x], b as [|y|y|y|y|y]; simpl; intros H;
    try discriminate H; try reflexivity.
  - apply Bool.eqb_prop in H. subst y. reflexivity.
  - apply Z.eqb_eq in H. subst y.
    destruct c as [|z|z|z|z|z]; simpl; try reflexivity.
    + destruct x, z; reflexivity.
    + apply Z.eqb_sym.
  - apply Z.eqb_eq in H. subst x.
    destruct c as [|z|z|z|z|z]; simpl; try reflexivity.
    + destruct y, z; reflexivity.
    + apply Z.eqb_sym.
  - apply Z.eqb_eq in H. subst y. reflexivity.
  - apply String.eqb_eq in H. subst y. reflexivity.
Qed.

(** Reading a dictionary after [d[k1] = v]. *)
Lemma dict_get_set {V} (d : pydict V) (k1 k2 : pyval) (v : V) :
  dict_get (dict_set d k1 v) k2
  = if key_eqb k1 k2 then Some v else dict_get d k2.
Proof.
  induction d as [|[k' v'] r IH]; simpl; [reflexivity|].
  destruct (key_eqb k' k1) eqn:E1; simpl.
  - rewrite (key_eqb_congr _ _ k2 E1).
    destruct (key_eqb k1 k2); reflexivity.
  - rewrite IH.
    destruct (key_eqb k' k2) eqn:E2; [|reflexivity].
    destruct (key_eqb k1 k2) eqn:E3; [|reflexivity].
    rewrite (key_eqb_sym k1 k2) in E3.
    rewrite (key_eqb_congr _ _ k1 E2), E3 in E1. discriminate E1.
Qed.

(** The dictionary built from a list of jumps with hashable names: a key
    is bound to the last jump of the list with that name, or as before. *)
Lemma index_by_name_get (jumps : list Jump) :
  (forall j, In j jumps -> hashable (name j) = true) ->
  forall d, exists d',
    index_by_name d jumps = inr d'
    /\ (forall k, (forall j, In j jumps -> key_eqb (name j) k = false) ->
                  dict_get d' k = dict_get d k)
    /\ (forall pre j post,
          jumps = (pre ++ j :: post)%list ->
          (forall j', In j' post -> key_eqb (name j') (name j) = false) ->
          dict_get d' (name j) = Some j).
Proof.
  induction jumps as [|x r IH]; intros H d.
  - exists d. split; [reflexivity|]. split; [reflexivity|].
    intros [|a pre] j post E; discriminate E.
  - destruct (IH (fun j I => H j (or_intror I)) (dict_set d (name x) x))
      as (d' & E & Hother & Hlast).
    exists d'. simpl. rewrite (H x (or_introl eq_refl)).
    split; [exact E|]. split.
    + intros k Hk. rewrite Hother by (intros j I; apply Hk; right; exact I).
      rewrite dict_get_set, (Hk x (or_introl eq_refl)). reflexivity.
    + intros pre j post Ej Hpost. destruct pre as [|y pre].
      * simpl in Ej. injection Ej as Ex Er. subst x r.
        rewrite Hother by exact Hpost.
        rewrite dict_get_set.
        assert (R : key_eqb (name j) (name j) = true).
        { specialize (H j (or_introl eq_refl)).
          destruct (name j); simpl; try discriminate H; try reflexivity.
          - apply Bool.eqb_reflx.
          - apply Z.eqb_refl.
          - apply String.eqb_refl. }
        rewrite R. reflexivity.
      * simpl in Ej. injection Ej as Ex Er. subst y r.
        apply (Hlast pre j post eq_refl Hpost).
Qed.

(** The keyword arguments of a record are its items. *)
Lemma keywords_In (items : list (pyval * pyval)) (kw : list (string * pyval))
    (k : string) (v : pyval) :
  keywords items = Some kw -> In (PStr k, v) items -> In (k, v) kw.
Proof.
  revert kw. induction items as [|[k' v'] r IH]; intros kw E I; [destruct I|].
  simpl in E. destruct k' as [| | |s| |]; try discriminate E.
  destruct (keywords r) as [kw'|]; [|discriminate E].
  injection E as <-. destruct I as [I|I].
  - injection I as -> ->. left. reflexivity.
  - right. apply IH; [reflexivity | exact I].
Qed.

Lemma is_field_In (k : string) : is_field k = true -> In k all_fields.
Proof.
  unfold is_field. intros H. apply existsb_exists in H as (f & I & E).
  apply String.eqb_eq in E. subst f. exact I.
Qed.

(** [Jump( **j )] raises for a record with an unknown key, and for a
    record that misses a required field. *)
Lemma Jump_init_unknown_field (j : pyval) :
  has_unknown_field j -> exists e, Jump_init j = inl e.
Proof.
  intros (items & k & v & -> & I & N). unfold Jump_init.
  destruct (keywords items) as [kw|] eqn:K; [|eexists; reflexivity].
  destruct (find (fun kv => negb (is_field (fst kv))) kw) as [[k' v']|] eqn:F;
    [eexists; reflexivity|].
  exfalso. apply N, is_field_In.
  pose proof (find_none _ _ F (k, v) (keywords_In _ _ _ _ K I)) as X.
  simpl in X. apply negb_false_iff in X. exact X.
Qed.

Lemma Jump_init_missing_field (j : pyval) :
  misses_required_field j -> exists e, Jump_init j = inl e.
Proof.
  intros (items & kw & f & -> & K & I & G). unfold Jump_init. rewrite K.
  destruct (find (fun kv => negb (is_field (fst kv))) kw) as [[k' v']|];
    [eexists; reflexivity|].
  unfold required_fields in I. simpl in I.
  destruct I as [<-|[<-|[<-|[<-|[<-|[<-|[]]]]]]]; rewrite G;
    repeat match goal with
           | |- context [match kw_get kw ?f with _ => _ end] =>
               destruct (kw_get kw f)
           end; eexists; reflexivity.
Qed.

Lemma build_jumps_fails (records : list pyval) (j : pyval) :
  In j records -> (exists e, Jump_init j = inl e) ->
  exists e, build_jumps records = inl e.
Proof.
  intros I [e E]. induction records as [|x r IH]; [destruct I|].
  simpl. destruct I as [->|I].
  - rewrite E. eexists; reflexivity.
  - destruct (Jump_init x); [eexists; reflexivity|].
    destruct (IH I) as [e' ->]. eexists; reflexivity.
Qed.

(** The documents that [load_config] rejects. *)
Lemma load_config_rejects (f : config_file) :
  defect_rejected f -> exists e, load_config f = inl e.
Proof.
  intros [->|[[problem ->]|(raw & j & -> & I & D)]].
  - eexists; reflexivity.
  - eexists; reflexivity.
  - simpl. unfold records_of in I.
    destruct (subscript_jumps raw) as [e|v]; [destruct I|].
    destruct (iterate v) as [e|records]; [destruct I|].
    destruct (build_jumps_fails records j I) as [e ->].
    + destruct D as [D|D];
        [apply Jump_init_missing_field | apply Jump_init_unknown_field]; exact D.
    + eexists; reflexivity.
Qed.

(** C7, as amended. A config that is absent, is malformed ([yaml.safe_load]
    raises), or holds a record that misses a required field or has an
    unknown field: [parse_jumps_from_config] prints the message
    "Failed to parse config.yaml ... The error:" with the exception, and
    leaves with exit status 1; no dictionary is returned. *)
Theorem C7_defective_config_is_fatal (w : world) (t : trace) :
  defect_rejected (config_yaml w) ->
  exists e,
    load_config (config_yaml w) = inl e
    /\ parse_jumps_from_config w t
       = (Exit 1, (t ++ [Secho (TextAndError config_error_text e) RED])%list)
    /\ exit_status (fst (parse_jumps_from_config w t)) = 1.
Proof.
  intros D. destruct (load_config_rejects _ D) as [e E].
  exists e. rewrite parse_jumps_from_config_run, E. repeat split.
Qed.

(** C7, as stated, fails: a record whose [remote_port] is a string is
    among the documents that the claim lists, and it is loaded. *)
Lemma C7_counterexample :
  defect_as_claimed (config_yaml mistyped_world)
  /\ parse_jumps_from_config mistyped_world []
     = (Return [(PStr "db-jump", mistyped_jump)], []).
Proof.
  split; [|reflexivity].
  right. right. exists (PDict [(PStr "jumps", PList [mistyped_record])]), mistyped_record.
  split; [reflexivity|]. split; [left; reflexivity|].
  right. left.
  eexists _, "remote_port", (PStr "abc").
  split; [reflexivity|].
  split; [simpl; tauto|].
  split; [simpl; tauto | reflexivity].
Qed.

(** C10. A config whose records all build a [Jump] with a hashable name,
    whatever names repeat: [parse_jumps_from_config] returns a dictionary
    and prints nothing, and each record that is the last with its name is
    the value of that name. *)
Theorem C10_last_record_of_a_name_wins (w : world) (t : trace) (raw v : pyval)
    (records : list pyval) (jumps : list Jump) :
  config_yaml w = Document raw ->
  subscript_jumps raw = inr v ->
  iterate v = inr records ->
  build_jumps records = inr jumps ->
  (forall j, In j jumps -> hashable (name j) = true) ->
  exists d,
    parse_jumps_from_config w t = (Return d, t)
    /\ (forall pre j post,
          jumps = (pre ++ j :: post)%list ->
          (forall j', In j' post -> key_eqb (name j') (name j) = false) ->
          dict_get d (name j) = Some j).
Proof.
  intros C S I B H.
  destruct (index_by_name_get jumps H []) as (d & E & _ & L).
  exists d. rewrite parse_jumps_from_config_run, C. simpl.
  rewrite S, I, B, E. split; [reflexivity | exact L].
Qed.

End ConfigStore.

Lemma C7_witness :
  exists e,
    parse_jumps_from_config incomplete_world []
    = (Exit 1, [Secho (TextAndError config_error_text e) RED]).
Proof.
  assert (D : defect_rejected (config_yaml incomplete_world)).
  { right. right.
    exists (PDict [(PStr "jumps", PList [incomplete_record])]), incomplete_record.
    split; [reflexivity|]. split; [left; reflexivity|].
    left. eexists _, _, "aws_profile".
    split; [reflexivity|]. split; [reflexivity|].
    split; [simpl; tauto | reflexivity]. }
  destruct (C7_defective_config_is_fatal incomplete_world [] D) as (e & _ & P & _).
  exists e. exact P.
Defined.

Lemma C10_witness :
  exists d,
    parse_jumps_from_config duplicate_world [] = (Return d, [])
    /\ dict_get d (PStr "db-jump") = Some second_db_jump.
Proof.
  destruct (C10_last_record_of_a_name_wins duplicate_world [] _ _ _
              [db_jump (PStr "prod"); cache_jump; second_db_jump]
              eq_refl eq_refl eq_refl eq_refl) as (d & P & L).
  - intros j [<-|[<-|[<-|[]]]]; reflexivity.
  - exists d. split; [exact P|].
    apply (L [db_jump (PStr "prod"); cache_jump] second_db_jump [] eq_refl).
    intros j' [].
Defined.

(* ================================================================= *)
(** ** Runs of the model *)

Section Runs_of_the_model.

Example strip_output : strip ("  " ++ nl ++ "i-0abc " ++ nl ++ nl) = "i-0abc".
Proof. reflexivity. Qed.

Example repr_with_apostrophe : repr_str ("it" ++ sq ++ "s") = dq ++ "it" ++ sq ++ "s" ++ dq.
Proof. reflexivity. Qed.

Example json_escapes : json_str ("a" ++ dq ++ nl) = dq ++ "a" ++ bs ++ dq ++ bs ++ "n" ++ dq.
Proof. reflexivity. Qed.

Example str_of_a_list : py_str (PList [PStr "a"; PInt 3; PNone]) = "[" ++ sq ++ "a" ++ sq ++ ", 3, None]".
Proof. reflexivity. Qed.

(** The whole trace of a verbose run that finds its instance. *)
Example verbose_run_of_db_jump :
  run_jump calm_world "db-jump" true =
    (Return tt,
     [ Secho (Text "Looking up the instance ID of db-bastion") MAGENTA;
       Secho (Text (describe_instances_cmd (PStr "db-bastion") (PStr "prod"))) CYAN;
       Subprocess DescribeInstances
         (describe_instances_cmd (PStr "db-bastion") (PStr "prod"));
       Secho (Text ("instance_id=" ++ sq ++ "i-0abc" ++ sq)) CYAN;
       Secho (Text "Establishing an SSM session") MAGENTA;
       Secho (Text (start_session_cmd (PStr "i-0abc") (PStr "10.0.1.5") (PInt 5432)
                      (PInt 15432) (PStr "prod"))) CYAN;
       Subprocess StartSession
         (start_session_cmd (PStr "i-0abc") (PStr "10.0.1.5") (PInt 5432)
            (PInt 15432) (PStr "prod")) ]).
Proof. reflexivity. Qed.

(** Two instances answer the query: the run stops before the tunnel. *)
Example two_instances_are_refused :
  run_jump {| config_yaml := db_jump_config (PStr "prod");
              shell := answers (succeeded ("i-1" ++ nl ++ "i-2" ++ nl)) (failed 1) |}
           "db-jump" false
  = (Exit 1,
     [ Secho (Text "Looking up the instance ID of db-bastion") MAGENTA;
       Subprocess DescribeInstances
         (describe_instances_cmd (PStr "db-bastion") (PStr "prod"));
       Secho (Text "Found more than one instance. This is not supported at the moment.") RED ]).
Proof. reflexivity. Qed.

(** The endpoint query prints nothing: the run stops before the tunnel. *)
Example endpoint_without_dns :
  run_jump endpoint_missing_world "cache-jump" false
  = (Exit 1,
     [ Secho (Text "Looking up the instance ID of cache-bastion") MAGENTA;
       Subprocess DescribeInstances
         (describe_instances_cmd (PStr "cache-bastion") (PStr "prod"));
       Secho (Text "Looking up the DNS from VPC endpoint cache-endpoint") MAGENTA;
       Subprocess DescribeVpcEndpoints
         (describe_vpc_endpoints_cmd (PStr "cache-endpoint") (PStr "prod"));
       Secho (Text "Could not find DNS for cache-endpoint") RED ]).
Proof. reflexivity. Qed.

(** A record with an unknown key, a record without its required fields,
    a name that cannot be a key. *)
Example unknown_key_is_an_error :
  load_config (Document (PDict [(PStr "jumps",
     PList [PDict [(PStr "name", PStr "a"); (PStr "colour", PStr "red")]])]))
  = inl (TypeError (UnexpectedKeyword "colour")).
Proof. reflexivity. Qed.

Example missing_fields_are_an_error :
  load_config (config_yaml incomplete_world)
  = inl (TypeError (MissingKeywordOnly ["aws_profile"])).
Proof. reflexivity. Qed.

Example list_as_name_is_an_error :
  load_config (Document (PDict [(PStr "jumps",
     PList [PDict [ (PStr "name", PList [PStr "a"]);
                    (PStr "target_instance_name", PStr "b");
                    (PStr "remote_host", PStr "h");
                    (PStr "remote_port", PInt 1);
                    (PStr "local_port", PInt 2);
                    (PStr "aws_profile", PStr "p") ]])]))
  = inl (TypeError Unhashable).
Proof. reflexivity. Qed.

(** The record with a string for a port is used as it is: the string goes
    into the parameters of the session. *)
Example mistyped_port_reaches_the_session :
  calls (snd (run_jump mistyped_world "db-jump" false))
  = [ Subprocess DescribeInstances
        (describe_instances_cmd (PStr "db-bastion") (PStr "prod"));
      Subprocess StartSession
        (start_session_cmd (PStr "i-0abc") (PStr "10.0.1.5") (PStr "abc")
           (PInt 15432) (PStr "prod")) ].
Proof. reflexivity. Qed.

End Runs_of_the_model.

(* ================================================================= *)
(** ** The stages of a run, together *)

Section Pipeline.

Variable w : world.
Variable jump_name : string.
Variable verbose : bool.

(** The outcome and the commands of any run. *)
Lemma run_jump_outcome_and_calls :
  (fst (run_jump w jump_name verbose), calls (snd (run_jump w jump_name verbose)))
  = match load_config (config_yaml w) with
    | inl _ => (Exit 1, [])
    | inr jumps =>
        match dict_get jumps (PStr jump_name) with
        | None => (Exit 1, [])
        | Some target => expected_run w target
        end
    end.
Proof.
  unfold run_jump. rewrite jump_run.
  destruct (load_config (config_yaml w)) as [e|jumps]; [reflexivity|].
  destruct (dict_get jumps (PStr jump_name)) as [target|]; [|reflexivity].
  unfold expected_run, instance_found, dns_found. cbv zeta.
  pose proof (calls_lookup_instance_id (target_instance_name target)
                (aws_profile target) verbose w []) as C1.
  rewrite lookup_instance_id_run in *. cbv zeta in *.
  cbn [calls filter List.length app] in *.
  set (di := describe_instances_cmd _ _) in *.
  destruct (returncode (shell w 0 di) =? 0); cbn [andb];
    [|cbn [fst snd] in *; rewrite C1; reflexivity].
  destruct (is_empty (strip (stdout (shell w 0 di)))); cbn [andb negb];
    [cbn [fst snd] in *; rewrite C1; reflexivity|].
  destruct (contains newline_char (strip (stdout (shell w 0 di)))); cbn [andb negb];
    [cbn [fst snd] in *; rewrite C1; reflexivity|].
  cbn [snd] in C1.
  destruct (truthy (remote_host_is_a_vpc_endpoint target)).
  - match goal with
    | |- context [lookup_dns_from_vpc_endpoint ?n ?p verbose w ?t] =>
        pose proof (calls_lookup_dns_from_vpc_endpoint n p verbose w t) as C2;
        rewrite (lookup_dns_from_vpc_endpoint_run n p verbose w t) in *
    end.
    cbv zeta in *. rewrite C1 in *. cbn [List.length app] in *.
    set (dv := describe_vpc_endpoints_cmd _ _) in *.
    destruct (returncode (shell w 1 dv) =? 0); cbn [andb];
      [|cbn [fst snd] in *; rewrite C2; reflexivity].
    destruct (is_empty (strip (stdout (shell w 1 dv)))); cbn [andb negb];
      [cbn [fst snd] in *; rewrite C2; reflexivity|].
    cbn [snd] in C2.
    rewrite start_ssm_session_run. cbn [fst snd].
    rewrite calls_echo_diag_call, C2. reflexivity.
  - rewrite start_ssm_session_run. cbn [fst snd].
    rewrite calls_echo_diag_call, C1. reflexivity.
Qed.

End Pipeline.

Section PipelineProperties.

Variable w : world.
Variable jump_name : string.
Variable verbose : bool.

Lemma sites_calls (t : trace) : sites (calls t) = sites t.
Proof.
  induction t as [|[m c|s cmd] t IH]; simpl; [reflexivity | exact IH |].
  rewrite IH. reflexivity.
Qed.

(** X1. The instance query fails (exit status not 0): the run prints
    "Failed to lookup the instance ID of ..." in red and ends with exit
    status 1; the query is the only command of the run. *)
Theorem X1_failed_instance_query_is_fatal (jumps : pydict Jump) (target : Jump) :
  load_config (config_yaml w) = inr jumps ->
  dict_get jumps (PStr jump_name) = Some target ->
  let query := describe_instances_cmd (target_instance_name target)
                 (aws_profile target) in
  returncode (shell w 0 query) <> 0 ->
  run_jump w jump_name verbose
  = (Exit 1,
     (Secho (Text ("Looking up the instance ID of "
                   ++ py_str (target_instance_name target))) MAGENTA
        :: diagnostic verbose query
        ++ [ Subprocess DescribeInstances query;
             Secho (Text ("Failed to lookup the instance ID of "
                          ++ py_str (target_instance_name target))) RED ])%list).
Proof.
  intros L G query H. unfold run_jump.
  rewrite jump_run, L, G, lookup_instance_id_run. cbv zeta.
  cbn [calls filter List.length]. fold query.
  apply Z.eqb_neq in H. rewrite H. cbn [app].
  rewrite <- app_assoc. reflexivity.
Qed.

(** X2. The commands of any run follow the pipeline: nothing; the instance
    query alone; the instance query and the session; the instance query
    and the endpoint query; or all three, in this order. The run returns
    (exit status 0) when the session command was run, and leaves with exit
    status 1 otherwise. *)
Theorem X2_commands_follow_the_pipeline :
  let r := run_jump w jump_name verbose in
  (sites (snd r) = [] /\ fst r = Exit 1)
  \/ (sites (snd r) = [DescribeInstances] /\ fst r = Exit 1)
  \/ (sites (snd r) = [DescribeInstances; StartSession] /\ fst r = Return tt)
  \/ (sites (snd r) = [DescribeInstances; DescribeVpcEndpoints] /\ fst r = Exit 1)
  \/ (sites (snd r) = [DescribeInstances; DescribeVpcEndpoints; StartSession]
      /\ fst r = Return tt).
Proof.
  cbv zeta. rewrite <- sites_calls.
  pose proof run_jump_outcome_and_calls w jump_name verbose as H.
  destruct (run_jump w jump_name verbose) as [o t]. cbn [fst snd] in *.
  destruct (load_config (config_yaml w)) as [e|jumps];
    [injection H as -> ->; left; split; reflexivity|].
  destruct (dict_get jumps (PStr jump_name)) as [target|];
    [|injection H as -> ->; left; split; reflexivity].
  unfold expected_run in H. cbv zeta in H.
  destruct (instance_found _);
    [|injection H as -> ->; right; left; split; reflexivity].
  destruct (truthy _).
  - destruct (dns_found _); injection H as -> ->.
    + do 4 right. split; reflexivity.
    + do 3 right. left. split; reflexivity.
  - injection H as -> ->. right. right. left. split; reflexivity.
Qed.

(** X3. A config that is absent, is malformed ([yaml.safe_load] raises),
    or holds a record that misses a required field or has an unknown
    field: the run prints the config error in red, ends with exit status 1
    and runs no command, whatever the name asked for. *)
Theorem X3_config_error_stops_the_run :
  defect_rejected (config_yaml w) ->
  exists e,
    run_jump w jump_name verbose
    = (Exit 1, [Secho (TextAndError config_error_text e) RED]).
Proof.
  intros D. destruct (load_config_rejects _ D) as [e E].
  exists e. unfold run_jump. rewrite jump_run, E. reflexivity.
Qed.

End PipelineProperties.

Lemma X1_witness :
  fst (run_jump instance_failing_world "cache-jump" false) = Exit 1.
Proof.
  assert (N : 254 <> 0) by discriminate.
  exact (f_equal fst
           (X1_failed_instance_query_is_fatal instance_failing_world
              "cache-jump" false [(PStr "cache-jump", cache_jump)] cache_jump
              eq_refl eq_refl N)).
Defined.

Lemma X3_witness :
  exists e,
    run_jump incomplete_world "db-jump" true
    = (Exit 1, [Secho (TextAndError config_error_text e) RED]).
Proof.
  apply (X3_config_error_stops_the_run incomplete_world "db-jump" true).
  right. right.
  exists (PDict [(PStr "jumps", PList [incomplete_record])]), incomplete_record.
  split; [reflexivity|]. split; [left; reflexivity|].
  left. eexists _, _, "aws_profile".
  split; [reflexivity|]. split; [reflexivity|].
  split; [simpl; tauto | reflexivity].
Defined.

(* ================================================================= *)
(** ** The loaded dictionary *)

Section LoadedDictionary.

Lemma key_eqb_refl (k : pyval) : hashable k = true -> key_eqb k k = true.
Proof.
  destruct k; simpl; intros H; try discriminate H; try reflexivity.
  - apply Bool.eqb_reflx.
  - apply Z.eqb_refl.
  - apply String.eqb_refl.
Qed.

Lemma key_eqb_str (k : pyval) (n : string) :
  key_eqb k (PStr n) = true -> k = PStr n.
Proof.
  destruct k; simpl; intros H; try discriminate H.
  apply String.eqb_eq in H. subst. reflexivity.
Qed.

Lemma dict_get_In {V} (d : pydict V) (k : pyval) (v : V) :
  dict_get d k = Some v -> exists k', In (k', v) d /\ key_eqb k' k = true.
Proof.
  induction d as [|[k0 v0] r IH]; simpl; [discriminate|].
  destruct (key_eqb k0 k) eqn:E; intros H.
  - injection H as ->. exists k0. split; [left; reflexivity | exact E].
  - destruct (IH H) as (k' & I & E'). exists k'. split; [right; exact I | exact E'].
Qed.

(** The items of a dictionary after [d[k] = v]. *)
Lemma dict_set_In {V} (d : pydict V) (k : pyval) (v : V) (k' : pyval) (v' : V) :
  In (k', v') (dict_set d k v) ->
  In (k', v') d \/ (v' = v /\ (k' = k \/ key_eqb k' k = true)).
Proof.
  induction d as [|[k0 v0] r IH]; simpl.
  - intros [H|[]]. injection H as <- <-. right. auto.
  - destruct (key_eqb k0 k) eqn:E; simpl; intros [H|H].
    + injection H as <- <-. right. auto.
    + left. right. exact H.
    + left. left. exact H.
    + destruct (IH H) as [I|I]; [left; right; exact I | right; exact I].
Qed.

Lemma dict_set_keys {V} (d : pydict V) (k : pyval) (v : V) (f : pyval -> bool) :
  existsb f (map fst (dict_set d k v)) = true ->
  existsb f (map fst d) = true \/ f k = true.
Proof.
  induction d as [|[k0 v0] r IH]; simpl.
  - rewrite orb_false_r. auto.
  - destruct (key_eqb k0 k); simpl; intros H.
    + left. exact H.
    + apply orb_prop in H as [H|H]; [left; rewrite H; reflexivity|].
      destruct (IH H) as [I|I]; [left; rewrite I; apply orb_true_r | right; exact I].
Qed.

Lemma dict_set_keys_distinct {V} (d : pydict V) (k : pyval) (v : V) :
  keys_distinct d = true -> keys_distinct (dict_set d k v) = true.
Proof.
  induction d as [|[k0 v0] r IH]; simpl; [reflexivity|].
  intros H. apply andb_prop in H as [N D].
  destruct (key_eqb k0 k) eqn:E; simpl.
  - rewrite N, D. reflexivity.
  - rewrite (IH D), andb_true_r. apply negb_true_iff.
    destruct (existsb (key_eqb k0) (map fst (dict_set r k v))) eqn:X; [|reflexivity].
    apply dict_set_keys in X as [X|X].
    + rewrite X in N. discriminate N.
    + rewrite X in E. discriminate E.
Qed.

(** What [index_by_name] builds: distinct keys, and items whose key is
    the name of their value, a jump of the list. *)
Lemma index_by_name_items (jumps : list Jump) :
  forall d d', index_by_name d jumps = inr d' ->
    (keys_distinct d = true -> keys_distinct d' = true)
    /\ (forall k j, In (k, j) d' ->
          In (k, j) d \/ (In j jumps /\ key_eqb k (name j) = true)).
Proof.
  induction jumps as [|x r IH]; simpl; intros d d' H.
  - injection H as <-. auto.
  - destruct (hashable (name x)) eqn:Hx; [|discriminate H].
    destruct (IH _ _ H) as [D I]. split.
    + intros Hd. apply D, dict_set_keys_distinct, Hd.
    + intros k j Hk. destruct (I k j Hk) as [A|[A B]]; [|right; auto].
      apply dict_set_In in A as [A|[-> [->|A]]]; [left; exact A | |];
        right; split; auto using key_eqb_refl.
Qed.

Lemma build_jumps_In (records : list pyval) :
  forall jumps j, build_jumps records = inr jumps -> In j jumps ->
    exists record, In record records /\ Jump_init record = inr j.
Proof.
  induction records as [|x r IH]; simpl; intros jumps j H I.
  - injection H as <-. destruct I.
  - destruct (Jump_init x) as [e|y] eqn:E; [discriminate H|].
    destruct (build_jumps r) as [e|ys]; [discriminate H|].
    injection H as <-. destruct I as [<-|I].
    + exists x. auto.
    + destruct (IH ys j eq_refl I) as (record & A & B). exists record. auto.
Qed.

(** The load that succeeds, taken apart. *)
Lemma load_config_inr (f : config_file) (d : pydict Jump) :
  load_config f = inr d ->
  exists raw jumps,
    f = Document raw /\ build_jumps (records_of raw) = inr jumps
    /\ index_by_name [] jumps = inr d.
Proof.
  destruct f as [|problem|raw]; simpl; try discriminate.
  destruct (subscript_jumps raw) as [e|v] eqn:S; [discriminate|].
  destruct (iterate v) as [e|records] eqn:I; [discriminate|].
  destruct (build_jumps records) as [e|jumps] eqn:B; [discriminate|].
  intros H. exists raw, jumps. unfold records_of. rewrite S, I.
  split; [reflexivity|]. split; [exact B | exact H].
Qed.

Lemma parse_jumps_from_config_Return (w : world) (t t' : trace) (d : pydict Jump) :
  parse_jumps_from_config w t = (Return d, t') ->
  load_config (config_yaml w) = inr d.
Proof.
  rewrite parse_jumps_from_config_run.
  destruct (load_config (config_yaml w)); intros H; [discriminate H|].
  injection H as -> _. reflexivity.
Qed.

(** X4. In the dictionary that [parse_jumps_from_config] returns, the jump
    found under a name has that very name, and it was built by
    [Jump( **record )] from a record of the document. *)
Theorem X4_lookup_by_name_finds_that_name (w : world) (t t' : trace)
    (d : pydict Jump) (n : string) (j : Jump) :
  parse_jumps_from_config w t = (Return d, t') ->
  dict_get d (PStr n) = Some j ->
  name j = PStr n
  /\ exists raw record,
       config_yaml w = Document raw /\ In record (records_of raw)
       /\ Jump_init record = inr j.
Proof.
  intros P G. apply parse_jumps_from_config_Return in P.
  destruct (load_config_inr _ _ P) as (raw & jumps & F & B & X).
  destruct (dict_get_In _ _ _ G) as (k & I & E).
  apply key_eqb_str in E. subst k.
  destruct (proj2 (index_by_name_items _ _ _ X) _ _ I) as [[]|[A K]].
  rewrite key_eqb_sym in K. apply key_eqb_str in K.
  split; [exact K|].
  destruct (build_jumps_In _ _ _ B A) as (record & R1 & R2).
  exists raw, record. auto.
Qed.

(** X5. The keys of the dictionary that [parse_jumps_from_config] returns
    are pairwise different: a name is bound once. *)
Theorem X5_loaded_names_are_distinct (w : world) (t t' : trace) (d : pydict Jump) :
  parse_jumps_from_config w t = (Return d, t') ->
  keys_distinct d = true.
Proof.
  intros P. apply parse_jumps_from_config_Return in P.
  destruct (load_config_inr _ _ P) as (raw & jumps & _ & _ & X).
  apply (proj1 (index_by_name_items _ _ _ X)). reflexivity.
Qed.

End LoadedDictionary.

Lemma X4_witness :
  name second_db_jump = PStr "db-jump"
  /\ exists raw record,
       config_yaml duplicate_world = Document raw /\ In record (records_of raw)
       /\ Jump_init record = inr second_db_jump.
Proof.
  apply (X4_lookup_by_name_finds_that_name duplicate_world [] []
           [(PStr "db-jump", second_db_jump); (PStr "cache-jump", cache_jump)]
           "db-jump" second_db_jump); reflexivity.
Defined.

Lemma X5_witness :
  keys_distinct [(PStr "db-jump", second_db_jump); (PStr "cache-jump", cache_jump)]
  = true.
Proof.
  apply (X5_loaded_names_are_distinct duplicate_world [] []). reflexivity.
Defined.

(* ================================================================= *)
(** ** Building a jump from a record *)

Section Records.

Lemma kw_get_dict_get (items : list (pyval * pyval)) (kw : list (string * pyval))
    (f : string) :
  keywords items = Some kw -> kw_get kw f = dict_get items (PStr f).
Proof.
  revert kw. induction items as [|[k v] r IH]; simpl; intros kw H.
  - injection H as <-. reflexivity.
  - destruct k as [| | |s| |]; try discriminate H.
    destruct (keywords r) as [kw'|]; [|discriminate H].
    injection H as <-. simpl. rewrite (IH kw' eq_refl). reflexivity.
Qed.

(** [Jump( **record )] that succeeds, taken apart. *)
Lemma Jump_init_inr (record : pyval) (j : Jump) :
  Jump_init record = inr j ->
  exists items kw,
    record = PDict items /\ keywords items = Some kw
    /\ find (fun kv => negb (is_field (fst kv))) kw = None
    /\ kw_get kw "name" = Some (name j)
    /\ kw_get kw "target_instance_name" = Some (target_instance_name j)
    /\ kw_get kw "remote_host" = Some (remote_host j)
    /\ kw_get kw "remote_port" = Some (remote_port j)
    /\ kw_get kw "local_port" = Some (local_port j)
    /\ kw_get kw "aws_profile" = Some (aws_profile j)
    /\ remote_host_is_a_vpc_endpoint j
       = match kw_get kw "remote_host_is_a_vpc_endpoint" with
         | Some b => b
         | None => PBool false
         end.
Proof.
  unfold Jump_init. destruct record as [| | | | |items]; try discriminate.
  destruct (keywords items) as [kw|] eqn:K; [|discriminate].
  destruct (find _ kw) as [[k v]|] eqn:F; [discriminate|].
  destruct (kw_get kw "name") as [a|] eqn:Ea; [|discriminate].
  destruct (kw_get kw "target_instance_name") as [b|] eqn:Eb; [|discriminate].
  destruct (kw_get kw "remote_host") as [c|] eqn:Ec; [|discriminate].
  destruct (kw_get kw "remote_port") as [d|] eqn:Ed; [|discriminate].
  destruct (kw_get kw "local_port") as [e|] eqn:Ee; [|discriminate].
  destruct (kw_get kw "aws_profile") as [g|] eqn:Eg; [|discriminate].
  intros H. injection H as <-. exists items, kw. simpl.
  repeat split; try assumption.
Qed.

(** X6. A record that [Jump( **record )] accepts is a mapping, and each
    field of the jump is the object under the key of that name, of any
    type; without the key [remote_host_is_a_vpc_endpoint] the flag is
    [False]. *)
Theorem X6_fields_are_the_values_of_the_record (record : pyval) (j : Jump) :
  Jump_init record = inr j ->
  exists items,
    record = PDict items
    /\ dict_get items (PStr "name") = Some (name j)
    /\ dict_get items (PStr "target_instance_name") = Some (target_instance_name j)
    /\ dict_get items (PStr "remote_host") = Some (remote_host j)
    /\ dict_get items (PStr "remote_port") = Some (remote_port j)
    /\ dict_get items (PStr "local_port") = Some (local_port j)
    /\ dict_get items (PStr "aws_profile") = Some (aws_profile j)
    /\ remote_host_is_a_vpc_endpoint j
       = match dict_get items (PStr "remote_host_is_a_vpc_endpoint") with
         | Some b => b
         | None => PBool false
         end.
Proof.
  intros H.
  destruct (Jump_init_inr _ _ H)
    as (items & kw & -> & K & _ & A & B & C & D & E & F & G).
  exists items. rewrite <- !(kw_get_dict_get items kw _ K). repeat split; assumption.
Qed.

Lemma keywords_map (kw : list (string * pyval)) :
  keywords (map (fun kv => (PStr (fst kv), snd kv)) kw) = Some kw.
Proof.
  induction kw as [|[k v] r IH]; simpl; [reflexivity|]. rewrite IH. reflexivity.
Qed.

Lemma keywords_Some (items : list (pyval * pyval)) (kw : list (string * pyval)) :
  keywords items = Some kw -> items = map (fun kv => (PStr (fst kv), snd kv)) kw.
Proof.
  revert kw. induction items as [|[k v] r IH]; simpl; intros kw H.
  - injection H as <-. reflexivity.
  - destruct k as [| | |s| |]; try discriminate H.
    destruct (keywords r) as [kw'|]; [|discriminate H].
    injection H as <-. simpl. rewrite (IH kw' eq_refl). reflexivity.
Qed.

(** With distinct keys, the order of the keyword arguments is of no
    account. *)
Lemma kw_get_Permutation (kw kw' : list (string * pyval)) (f : string) :
  Permutation.Permutation kw kw' -> NoDup (map fst kw) ->
  kw_get kw f = kw_get kw' f.
Proof.
  induction 1 as [|[k v] l l' P IH|[k1 v1] [k2 v2] l|l l' l'' P1 IH1 P2 IH2];
    intros N.
  - reflexivity.
  - simpl. inversion N; subst. rewrite IH by assumption. reflexivity.
  - simpl. destruct (String.eqb k1 f) eqn:E1, (String.eqb k2 f) eqn:E2;
      try reflexivity.
    apply String.eqb_eq in E1, E2. subst.
    simpl in N. inversion N; subst. exfalso. apply H1. left. reflexivity.
  - rewrite IH1 by assumption. apply IH2.
    apply (Permutation.Permutation_NoDup (Permutation.Permutation_map fst P1) N).
Qed.

Lemma find_none_Permutation {A} (f : A -> bool) (l l' : list A) :
  Permutation.Permutation l l' -> find f l = None -> find f l' = None.
Proof.
  intros P H. destruct (find f l') as [x|] eqn:E; [|reflexivity].
  apply find_some in E as [I T].
  apply (Permutation.Permutation_in _ (Permutation.Permutation_sym P)) in I.
  rewrite (find_none _ _ H x I) in T. discriminate T.
Qed.

(** X7. The order of the keys of a record is of no account: a record
    that builds a jump builds the same jump with its items (of distinct
    keys, as a mapping has them) in any other order. *)
Theorem X7_order_of_keys_is_irrelevant (items items' : list (pyval * pyval))
    (j : Jump) :
  Permutation.Permutation items items' ->
  NoDup (map fst items) ->
  Jump_init (PDict items) = inr j ->
  Jump_init (PDict items') = inr j.
Proof.
  intros P N H.
  destruct (Jump_init_inr _ _ H)
    as (items0 & kw & E0 & K & F & A & B & C & D & E & G & X).
  injection E0 as <-.
  pose proof (keywords_Some _ _ K) as Ei. subst items.
  destruct (Permutation.Permutation_map_inv _ _ (Permutation.Permutation_sym P))
    as (kw' & -> & Pk).
  assert (Nk : NoDup (map fst kw)).
  { rewrite map_map in N. simpl in N.
    clear - N. induction kw as [|[k v] r IH]; simpl in *; [constructor|].
    inversion N; subst. constructor; [|apply IH; assumption].
    intros I. apply H1. apply in_map_iff in I as (x & Ex & Ix).
    apply in_map_iff. exists x. split; [rewrite Ex; reflexivity | exact Ix]. }
  unfold Jump_init. rewrite keywords_map.
  rewrite (find_none_Permutation _ _ _ Pk F).
  rewrite <- !(kw_get_Permutation kw kw' _ Pk Nk), A, B, C, D, E, G.
  destruct j. simpl in *. subst. reflexivity.
Qed.

End Records.

Lemma X6_witness :
  exists items,
    db_jump_record_without_flag = PDict items
    /\ dict_get items (PStr "name") = Some (PStr "db-jump")
    /\ dict_get items (PStr "target_instance_name") = Some (PStr "db-bastion")
    /\ dict_get items (PStr "remote_host") = Some (PStr "10.0.1.5")
    /\ dict_get items (PStr "remote_port") = Some (PInt 5432)
    /\ dict_get items (PStr "local_port") = Some (PInt 15432)
    /\ dict_get items (PStr "aws_profile") = Some (PStr "prod")
    /\ PBool false
       = match dict_get items (PStr "remote_host_is_a_vpc_endpoint") with
         | Some b => b
         | None => PBool false
         end.
Proof.
  apply (X6_fields_are_the_values_of_the_record db_jump_record_without_flag
           (db_jump (PStr "prod"))).
  reflexivity.
Defined.

Lemma X7_witness :
  Jump_init (PDict [ (PStr "aws_profile", PStr "prod");
                     (PStr "local_port", PInt 15432);
                     (PStr "remote_port", PInt 5432);
                     (PStr "remote_host", PStr "10.0.1.5");
                     (PStr "target_instance_name", PStr "db-bastion");
                     (PStr "name", PStr "db-jump") ])
  = inr (db_jump (PStr "prod")).
Proof.
  apply (X7_order_of_keys_is_irrelevant
           [ (PStr "name", PStr "db-jump");
             (PStr "target_instance_name", PStr "db-bastion");
             (PStr "remote_host", PStr "10.0.1.5");
             (PStr "remote_port", PInt 5432);
             (PStr "local_port", PInt 15432);
             (PStr "aws_profile", PStr "prod") ]).
  - apply (Permutation_rev
             [ (PStr "name", PStr "db-jump");
               (PStr "target_instance_name", PStr "db-bastion");
               (PStr "remote_host", PStr "10.0.1.5");
               (PStr "remote_port", PInt 5432);
               (PStr "local_port", PInt 15432);
               (PStr "aws_profile", PStr "prod") ]).
  - simpl. repeat constructor; simpl; intuition discriminate.
  - reflexivity.
Defined.

(* ================================================================= *)
(** ** Why a load fails *)

Section LoadFailures.

Lemma keywords_In_items (items : list (pyval * pyval)) (kw : list (string * pyval))
    (k : string) (v : pyval) :
  keywords items = Some kw -> In (k, v) kw -> In (PStr k, v) items.
Proof.
  intros K I. rewrite (keywords_Some _ _ K).
  apply in_map_iff. exists (k, v). auto.
Qed.

Lemma not_field_not_In (k : string) : is_field k = false -> ~ In k all_fields.
Proof.
  unfold is_field. intros H I.
  assert (X : existsb (String.eqb k) all_fields = true).
  { apply existsb_exists. exists k. split; [exact I | apply String.eqb_refl]. }
  rewrite X in H. discriminate H.
Qed.

(** Why [Jump( **record )] raises. *)
Lemma Jump_init_inl (record : pyval) (e : exception) :
  Jump_init record = inl e ->
  not_keyword_mapping record \/ has_unknown_field record
  \/ misses_required_field record.
Proof.
  unfold Jump_init.
  destruct record as [| | | | |items]; try (left; exact I).
  destruct (keywords items) as [kw|] eqn:K; [|intros _; left; exact K].
  destruct (find _ kw) as [[k v]|] eqn:F.
  - intros _. right. left. apply find_some in F as [Ik Nk]. simpl in Nk.
    exists items, k, v. split; [reflexivity|].
    split; [apply (keywords_In_items _ _ _ _ K Ik)|].
    apply not_field_not_In, negb_true_iff, Nk.
  - intros H. right. right. exists items, kw.
    destruct (kw_get kw "name") eqn:E1;
      [|exists "name"; simpl; tauto].
    destruct (kw_get kw "target_instance_name") eqn:E2;
      [|exists "target_instance_name"; simpl; tauto].
    destruct (kw_get kw "remote_host") eqn:E3;
      [|exists "remote_host"; simpl; tauto].
    destruct (kw_get kw "remote_port") eqn:E4;
      [|exists "remote_port"; simpl; tauto].
    destruct (kw_get kw "local_port") eqn:E5;
      [|exists "local_port"; simpl; tauto].
    destruct (kw_get kw "aws_profile") eqn:E6;
      [|exists "aws_profile"; simpl; tauto].
    discriminate H.
Qed.

Lemma build_jumps_inl (records : list pyval) (e : exception) :
  build_jumps records = inl e ->
  exists record, In record records /\ Jump_init record = inl e.
Proof.
  induction records as [|x r IH]; simpl; [discriminate|].
  destruct (Jump_init x) as [e'|j] eqn:E.
  - intros H. injection H as ->. exists x. auto.
  - destruct (build_jumps r) as [e'|js]; [|discriminate].
    intros H. injection H as ->.
    destruct (IH eq_refl) as (record & A & B). exists record. auto.
Qed.

Lemma index_by_name_inl (jumps : list Jump) :
  forall d e, index_by_name d jumps = inl e ->
    exists j, In j jumps /\ hashable (name j) = false.
Proof.
  induction jumps as [|x r IH]; simpl; intros d e H; [discriminate H|].
  destruct (hashable (name x)) eqn:Hx.
  - destruct (IH _ _ H) as (j & A & B). exists j. auto.
  - exists x. auto.
Qed.

(** X8. A config that was read and parsed to a document (of [None],
    booleans, integers, strings, lists and mappings) fails to load for
    these reasons and no others: the document is not a mapping with the
    key [jumps]; the value under [jumps] is [None], a boolean or an
    integer; a record is not a mapping with string keys; a record has an
    unknown field or misses a required one; the name of a record is a
    list or a mapping. *)
Theorem X8_reasons_of_a_failed_load (raw : pyval) (e : exception) :
  load_config (Document raw) = inl e ->
  lacks_jumps_key raw
  \/ jumps_not_iterable raw
  \/ exists record,
       In record (records_of raw)
       /\ (not_keyword_mapping record
           \/ has_unknown_field record
           \/ misses_required_field record
           \/ exists j, Jump_init record = inr j /\ hashable (name j) = false).
Proof.
  simpl. unfold records_of.
  destruct raw as [| | | | |items]; try (intros _; left; exact I).
  simpl. destruct (dict_get items (PStr "jumps")) as [v|] eqn:S;
    [|intros _; left; reflexivity].
  destruct (iterate v) as [e0|records] eqn:It.
  { intros _. right. left. exists items, v.
    split; [reflexivity|]. split; [exact S|].
    destruct v; try exact I; discriminate It. }
  destruct (build_jumps records) as [e0|jumps] eqn:B.
  - intros _. destruct (build_jumps_inl _ _ B) as (record & A & J).
    right. right. exists record. split; [exact A|].
    destruct (Jump_init_inl _ _ J) as [N|[U|M]]; tauto.
  - intros H. destruct (index_by_name_inl _ _ _ H) as (j & A & Hj).
    destruct (build_jumps_In _ _ _ B A) as (record & A' & J).
    right. right. exists record. split; [exact A'|].
    right. right. right. exists j. auto.
Qed.

End LoadFailures.

Lemma X8_witness :
  lacks_jumps_key (PDict [(PStr "jumps", PList [incomplete_record])])
  \/ jumps_not_iterable (PDict [(PStr "jumps", PList [incomplete_record])])
  \/ exists record,
       In record (records_of (PDict [(PStr "jumps", PList [incomplete_record])]))
       /\ (not_keyword_mapping record
           \/ has_unknown_field record
           \/ misses_required_field record
           \/ exists j, Jump_init record = inr j /\ hashable (name j) = false).
Proof.
  apply (X8_reasons_of_a_failed_load
           (PDict [(PStr "jumps", PList [incomplete_record])])
           (TypeError (MissingKeywordOnly ["aws_profile"]))).
  reflexivity.
Defined.

(* ================================================================= *)
(** ** What a lookup returns *)

Section LookupResults.

Lemma lstrip_head (s : string) (c : ascii) (r : string) :
  lstrip s = String c r -> is_space c = false.
Proof.
  induction s as [|x s IH]; simpl; [discriminate|].
  destruct (is_space x) eqn:E; [exact IH|].
  intros H. injection H as <- _. exact E.
Qed.

Lemma rstrip_rstrip (s : string) : rstrip (rstrip s) = rstrip s.
Proof.
  induction s as [|c r IH]; simpl; [reflexivity|].
  destruct (is_space c && is_empty (rstrip r)) eqn:E; [reflexivity|].
  simpl. rewrite IH, E. reflexivity.
Qed.

Lemma lstrip_strip (s : string) : lstrip (strip s) = strip s.
Proof.
  unfold strip. destruct (lstrip s) as [|c r] eqn:E; [reflexivity|].
  apply lstrip_head in E. simpl. rewrite E. simpl. rewrite E. reflexivity.
Qed.

Lemma rstrip_strip (s : string) : rstrip (strip s) = strip s.
Proof. unfold strip. apply rstrip_rstrip. Qed.

(** X9. What [lookup_instance_id] returns, when it returns: the query
    succeeded, and the identifier is its output stripped; it is not empty,
    holds no newline and has no white space left at either end. *)
Theorem X9_instance_id_is_one_stripped_line (instance_name profile : pyval)
    (verbose : bool) (w : world) (t t' : trace) (id : string) :
  lookup_instance_id instance_name profile verbose w t = (Return id, t') ->
  let p := shell w (List.length (calls t))
             (describe_instances_cmd instance_name profile) in
  returncode p = 0
  /\ id = strip (stdout p)
  /\ is_empty id = false
  /\ contains newline_char id = false
  /\ lstrip id = id /\ rstrip id = id.
Proof.
  rewrite lookup_instance_id_run. cbv zeta.
  destruct (returncode _ =? 0) eqn:R; [|discriminate].
  destruct (is_empty _) eqn:E; [discriminate|].
  destruct (contains _ _) eqn:N; [discriminate|].
  intros H. injection H as <- _.
  apply Z.eqb_eq in R.
  repeat split; auto using lstrip_strip, rstrip_strip.
Qed.

(** X10. What [lookup_dns_from_vpc_endpoint] returns, when it returns:
    the query succeeded, and the name is its output stripped; it is not
    empty and has no white space left at either end. *)
Theorem X10_dns_name_is_the_stripped_output (endpoint profile : pyval)
    (verbose : bool) (w : world) (t t' : trace) (dns : string) :
  lookup_dns_from_vpc_endpoint endpoint profile verbose w t = (Return dns, t') ->
  let p := shell w (List.length (calls t))
             (describe_vpc_endpoints_cmd endpoint profile) in
  returncode p = 0
  /\ dns = strip (stdout p)
  /\ is_empty dns = false
  /\ lstrip dns = dns /\ rstrip dns = dns.
Proof.
  rewrite lookup_dns_from_vpc_endpoint_run. cbv zeta.
  destruct (returncode _ =? 0) eqn:R; [|discriminate].
  destruct (is_empty _) eqn:E; [discriminate|].
  intros H. injection H as <- _.
  apply Z.eqb_eq in R.
  repeat split; auto using lstrip_strip, rstrip_strip.
Qed.

End LookupResults.

Lemma X9_witness :
  0 = 0
  /\ "i-0abc" = strip ("i-0abc" ++ nl)
  /\ is_empty "i-0abc" = false
  /\ contains newline_char "i-0abc" = false
  /\ lstrip "i-0abc" = "i-0abc" /\ rstrip "i-0abc" = "i-0abc".
Proof.
  apply (X9_instance_id_is_one_stripped_line (PStr "db-bastion") (PStr "prod") false
           calm_world []
           (snd (lookup_instance_id (PStr "db-bastion") (PStr "prod") false
                   calm_world []))
           "i-0abc").
  reflexivity.
Defined.

Lemma X10_witness :
  0 = 0
  /\ "vpce-1.example" = strip ("vpce-1.example" ++ nl)
  /\ is_empty "vpce-1.example" = false
  /\ lstrip "vpce-1.example" = "vpce-1.example"
  /\ rstrip "vpce-1.example" = "vpce-1.example".
Proof.
  apply (X10_dns_name_is_the_stripped_output (PStr "cache-endpoint") (PStr "prod")
           false endpoint_world
           [Subprocess DescribeInstances "first"]
           (snd (lookup_dns_from_vpc_endpoint (PStr "cache-endpoint") (PStr "prod")
                   false endpoint_world [Subprocess DescribeInstances "first"]))
           "vpce-1.example").
  reflexivity.
Defined.

(* ================================================================= *)
(** ** What a run prints *)

Section Reports.

Variable w : world.
Variable jump_name : string.

Lemma red_diagnostic (v : bool) (s : string) : existsb is_red (diagnostic v s) = false.
Proof. destruct v; reflexivity. Qed.

Ltac no_red :=
  repeat first [ rewrite existsb_app | rewrite red_diagnostic
               | progress cbn [existsb is_red orb app] ];
  reflexivity.

(** X11. A run that leaves with [typer.Exit] leaves with code 1, and the
    last thing it printed is its only red message; a run that returns
    printed nothing in red. (Of a run that an exception ends, nothing is
    said.) *)
Theorem X11_an_exit_is_reported_in_red (verbose : bool) :
  match run_jump w jump_name verbose with
  | (Return _, t) => existsb is_red t = false
  | (Exit c, t) =>
      c = 1 /\ exists t' m, t = (t' ++ [Secho m RED])%list
                            /\ existsb is_red t' = false
  | (Raise _, _) => True
  end.
Proof.
  unfold run_jump. rewrite jump_run.
  destruct (load_config (config_yaml w)) as [e|jumps].
  { split; [reflexivity|]. eexists [], _. split; reflexivity. }
  destruct (dict_get jumps (PStr jump_name)) as [target|].
  2: { split; [reflexivity|]. eexists [], _. split; reflexivity. }
  rewrite lookup_instance_id_run. cbv zeta.
  destruct (returncode _ =? 0).
  2: { split; [reflexivity|]. eexists _, _. split; [reflexivity | no_red]. }
  destruct (is_empty _).
  { split; [reflexivity|]. eexists _, _. split; [reflexivity | no_red]. }
  destruct (contains _ _).
  { split; [reflexivity|]. eexists _, _. split; [reflexivity | no_red]. }
  destruct (truthy _).
  - rewrite lookup_dns_from_vpc_endpoint_run. cbv zeta.
    destruct (returncode _ =? 0).
    2: { split; [reflexivity|]. eexists _, _. split; [reflexivity | no_red]. }
    destruct (is_empty _).
    { split; [reflexivity|]. eexists _, _. split; [reflexivity | no_red]. }
    rewrite start_ssm_session_run. cbv zeta. no_red.
  - rewrite start_ssm_session_run. cbv zeta. no_red.
Qed.

Lemma start_session_cmd_text (id host rport lport profile : pyval) :
  start_session_cmd id host rport lport profile
  = "aws --profile " ++ py_str profile ++ " "
      ++ "ssm start-session --target " ++ py_str id ++ " "
      ++ "--document-name AWS-StartPortForwardingSessionToRemoteHost --parameters "
      ++ sq ++ json_dumps (ssm_parameters host rport lport) ++ sq.
Proof.
  unfold start_session_cmd. cbv zeta.
  repeat rewrite app_assoc_s. reflexivity.
Qed.

(** X12. Every command of a run is an [aws] command for the profile of
    the jump that was asked for: the two lookups and the session use the
    same [aws_profile]. *)
Theorem X12_every_command_uses_the_profile (verbose : bool) (jumps : pydict Jump)
    (target : Jump) (site : call_site) (cmd : string) :
  load_config (config_yaml w) = inr jumps ->
  dict_get jumps (PStr jump_name) = Some target ->
  In (Subprocess site cmd) (snd (run_jump w jump_name verbose)) ->
  exists rest, cmd = "aws --profile " ++ py_str (aws_profile target) ++ " " ++ rest.
Proof.
  intros L G I. apply in_calls in I; [|reflexivity].
  pose proof (run_jump_outcome_and_calls w jump_name verbose) as H.
  rewrite L, G in H.
  destruct (run_jump w jump_name verbose) as [o t]. cbn [fst snd] in *.
  assert (X : In (Subprocess site cmd)
                [ Subprocess DescribeInstances
                    (describe_instances_cmd (target_instance_name target)
                       (aws_profile target));
                  Subprocess DescribeVpcEndpoints
                    (describe_vpc_endpoints_cmd (remote_host target)
                       (aws_profile target)) ]
              \/ exists id host,
                   cmd = start_session_cmd id host (remote_port target)
                           (local_port target) (aws_profile target)).
  { unfold expected_run in H. cbv zeta in H.
    destruct (instance_found _); [|injection H as _ E; rewrite E in I; left; simpl in *; tauto].
    destruct (truthy _).
    - destruct (dns_found _); injection H as _ E; rewrite E in I.
      + destruct I as [I|[I|[I|[]]]].
        * left. left. exact I.
        * left. right. left. exact I.
        * right. injection I as _ <-. eexists _, _. reflexivity.
      + left. exact I.
    - injection H as _ E; rewrite E in I. destruct I as [I|[I|[]]].
      + left. left. exact I.
      + right. injection I as _ <-. eexists _, _. reflexivity. }
  destruct X as [[X|[X|[]]]|(id & host & ->)].
  - injection X as _ <-. rewrite describe_instances_cmd_text.
    eexists. reflexivity.
  - injection X as _ <-. rewrite describe_vpc_endpoints_cmd_text.
    eexists. reflexivity.
  - rewrite start_session_cmd_text. eexists. reflexivity.
Qed.

End Reports.

Lemma X12_witness :
  exists rest,
    describe_instances_cmd (PStr "db-bastion") (PStr "prod")
    = "aws --profile " ++ "prod" ++ " " ++ rest.
Proof.
  apply (X12_every_command_uses_the_profile calm_world "db-jump" true
           [(PStr "db-jump", db_jump (PStr "prod"))] (db_jump (PStr "prod"))
           DescribeInstances
           (describe_instances_cmd (PStr "db-bastion") (PStr "prod"))).
  - reflexivity.
  - reflexivity.
  - simpl. right. right. left. reflexivity.
Defined.

(* ================================================================= *)
(** ** What verbose mode echoes *)

Section VerboseEcho.

Lemma snoc_cases {A} (l : list A) : l = [] \/ exists l' x, l = (l' ++ [x])%list.
Proof.
  induction l as [|a l IH]; [left; reflexivity|].
  right. destruct IH as [->|(l' & x & ->)].
  - exists [], a. reflexivity.
  - exists (a :: l'), x. reflexivity.
Qed.

Lemma commands_echoed_nil : commands_echoed [].
Proof. intros [|a pre] site cmd post H; discriminate H. Qed.

Lemma commands_echoed_secho (t : trace) (m : message) (c : color) :
  commands_echoed t -> commands_echoed (t ++ [Secho m c]).
Proof.
  intros P pre site cmd post H.
  destruct (snoc_cases post) as [->|(post' & x & ->)].
  - apply app_inj_tail in H as [_ H]. discriminate H.
  - change (pre ++ Subprocess site cmd :: post' ++ [x])%list
      with (pre ++ (Subprocess site cmd :: post') ++ [x])%list in H.
    rewrite app_assoc in H. apply app_inj_tail in H as [H _].
    apply (P pre site cmd post' H).
Qed.

Lemma commands_echoed_call (t : trace) (site : call_site) (cmd : string) :
  commands_echoed t ->
  commands_echoed ((t ++ [Secho (Text cmd) CYAN]) ++ [Subprocess site cmd]).
Proof.
  intros P pre site' cmd' post H.
  destruct (snoc_cases post) as [->|(post' & x & ->)].
  - apply app_inj_tail in H as [H E]. injection E as _ <-.
    exists t. symmetry. exact H.
  - change (pre ++ Subprocess site' cmd' :: post' ++ [x])%list
      with (pre ++ (Subprocess site' cmd' :: post') ++ [x])%list in H.
    rewrite app_assoc in H. apply app_inj_tail in H as [H _].
    apply (commands_echoed_secho t _ _ P pre site' cmd' post' H).
Qed.

Ltac echoed :=
  cbn [diagnostic app];
  repeat match goal with
         | |- commands_echoed ((?t ++ ?l) ++ ?l') => rewrite <- (app_assoc t l l')
         end;
  cbn [app];
  repeat match goal with
         | |- commands_echoed (?t ++ ?x :: ?y :: ?l) =>
             change (t ++ x :: y :: l)%list with (t ++ [x] ++ y :: l)%list;
             rewrite (app_assoc t [x] (y :: l))
         end;
  repeat first [ apply commands_echoed_call | apply commands_echoed_secho ];
  try assumption.

Lemma lookup_instance_id_echoed (n p : pyval) (w : world) (t : trace) :
  commands_echoed t -> commands_echoed (snd (lookup_instance_id n p true w t)).
Proof.
  intros P. rewrite lookup_instance_id_run. cbv zeta.
  destruct (returncode _ =? 0); [destruct (is_empty _); [|destruct (contains _ _)]|];
    cbn [snd]; echoed.
Qed.

Lemma lookup_dns_from_vpc_endpoint_echoed (n p : pyval) (w : world) (t : trace) :
  commands_echoed t ->
  commands_echoed (snd (lookup_dns_from_vpc_endpoint n p true w t)).
Proof.
  intros P. rewrite lookup_dns_from_vpc_endpoint_run. cbv zeta.
  destruct (returncode _ =? 0); [destruct (is_empty _)|]; cbn [snd]; echoed.
Qed.

Lemma start_ssm_session_echoed (id host rport lport profile : pyval) (w : world)
    (t : trace) :
  commands_echoed t ->
  commands_echoed (snd (start_ssm_session id host rport lport profile true w t)).
Proof.
  intros P. rewrite start_ssm_session_run. cbv zeta. cbn [snd]. echoed.
Qed.

(** X13. In a verbose run, every command comes right after the cyan echo
    of its own text: what is echoed is what is run. *)
Theorem X13_verbose_echoes_each_command (w : world) (jump_name : string)
    (pre : trace) (site : call_site) (cmd : string) (post : trace) :
  snd (run_jump w jump_name true) = (pre ++ Subprocess site cmd :: post)%list ->
  exists pre', pre = (pre' ++ [Secho (Text cmd) CYAN])%list.
Proof.
  assert (P : commands_echoed (snd (run_jump w jump_name true))).
  { unfold run_jump. rewrite jump_run.
    destruct (load_config (config_yaml w)) as [e|jumps].
    { cbn [snd app]. apply (commands_echoed_secho [] _ _ commands_echoed_nil). }
    destruct (dict_get jumps (PStr jump_name)) as [target|].
    2: { cbn [snd app]. apply (commands_echoed_secho [] _ _ commands_echoed_nil). }
    pose proof (lookup_instance_id_echoed (target_instance_name target)
                  (aws_profile target) w [] commands_echoed_nil) as P1.
    destruct (lookup_instance_id _ _ true w []) as [[id|c|e] t1]; cbn [snd] in *;
      try exact P1.
    destruct (truthy _).
    - pose proof (lookup_dns_from_vpc_endpoint_echoed (remote_host target)
                    (aws_profile target) w t1 P1) as P2.
      destruct (lookup_dns_from_vpc_endpoint _ _ true w t1) as [[dns|c|e] t2];
        cbn [snd] in *; try exact P2.
      apply start_ssm_session_echoed, P2.
    - apply start_ssm_session_echoed, P1. }
  exact (P pre site cmd post).
Qed.

End VerboseEcho.

Lemma X13_witness :
  exists pre',
    [ Secho (Text "Looking up the instance ID of db-bastion") MAGENTA;
      Secho (Text (describe_instances_cmd (PStr "db-bastion") (PStr "prod"))) CYAN ]
    = (pre' ++ [Secho (Text (describe_instances_cmd (PStr "db-bastion")
                               (PStr "prod"))) CYAN])%list.
Proof.
  apply (X13_verbose_echoes_each_command calm_world "db-jump" _ DescribeInstances _
           (skipn 3 (snd (run_jump calm_world "db-jump" true)))).
  reflexivity.
Defined.

(* ================================================================= *)
(** ** When a run succeeds *)

Section Success.

(** X14. A run for a jump of the config that returns (exit status 0)
    had its instance query name one instance and, for a jump to a VPC
    endpoint, its endpoint query name a host; and once those hold, the run
    does not leave with [typer.Exit], whatever the exit status of the
    session command. *)
Theorem X14_when_a_run_returns (w : world) (jump_name : string) (verbose : bool)
    (jumps : pydict Jump) (target : Jump) :
  load_config (config_yaml w) = inr jumps ->
  dict_get jumps (PStr jump_name) = Some target ->
  let p0 := shell w 0 (describe_instances_cmd (target_instance_name target)
                         (aws_profile target)) in
  let p1 := shell w 1 (describe_vpc_endpoints_cmd (remote_host target)
                         (aws_profile target)) in
  let found := instance_found p0 = true
               /\ (truthy (remote_host_is_a_vpc_endpoint target) = true ->
                   dns_found p1 = true) in
  (fst (run_jump w jump_name verbose) = Return tt -> found)
  /\ (found -> forall c, fst (run_jump w jump_name verbose) <> Exit c).
Proof.
  intros L G p0 p1 found. subst found.
  pose proof (run_jump_outcome_and_calls w jump_name verbose) as H.
  rewrite L, G in H. unfold expected_run in H. cbv zeta in H.
  fold p0 p1 in H.
  destruct (run_jump w jump_name verbose) as [o t]. cbn [fst snd] in *.
  destruct (instance_found p0).
  - destruct (truthy _).
    + destruct (dns_found p1); injection H as -> _.
      * split; [auto | intros _ c; discriminate].
      * split; [discriminate|]. intros [_ X]. discriminate (X eq_refl).
    + injection H as -> _. split; [|intros _ c; discriminate].
      intros _. split; [reflexivity | discriminate].
  - injection H as -> _. split; [discriminate|]. intros [X _]. discriminate X.
Qed.

End Success.

Lemma X14_witness :
  instance_found (succeeded ("i-0abc" ++ nl)) = true
  /\ (false = true -> dns_found (failed 255) = true).
Proof.
  apply (X14_when_a_run_returns failing_transport_world "db-jump" true
           [(PStr "db-jump", db_jump (PStr "prod"))] (db_jump (PStr "prod"))
           eq_refl eq_refl).
  reflexivity.
Defined.

(* ================================================================= *)
(** ** More loads of the model *)

Section Loads_of_the_model.

(** The key [self] meets the first parameter of [__init__]. *)
Example self_key_is_an_error :
  load_config (Document (PDict [(PStr "jumps",
     PList [PDict [(PStr "name", PStr "a"); (PStr "self", PInt 1)]])]))
  = inl (TypeError (MultipleValues "self")).
Proof. reflexivity. Qed.

(** An empty mapping or an empty string under [jumps] has nothing to go
    through: the load returns the empty dictionary. *)
Example empty_mapping_of_jumps_loads :
  load_config (Document (PDict [(PStr "jumps", PDict [])])) = inr [].
Proof. reflexivity. Qed.

Example empty_string_of_jumps_loads :
  load_config (Document (PDict [(PStr "jumps", PStr EmptyString)])) = inr [].
Proof. reflexivity. Qed.

(** A document without the key [jumps], and one whose [jumps] is [None]. *)
Example no_jumps_key_is_an_error :
  load_config (Document (PDict [(PStr "jump", PList [])])) = inl (KeyError "jumps").
Proof. reflexivity. Qed.

Example null_jumps_is_an_error :
  load_config (Document (PDict [(PStr "jumps", PNone)])) = inl (TypeError NotIterable).
Proof. reflexivity. Qed.

End Loads_of_the_model.
